(** * Medication reminder: call-flow controller and response classification

    A shallow embedding of [src/controllers/callController.js],
    [src/services/twilioService.js], [src/models/callLog.js] and
    [src/middleware/errorHandler.js].

    - JavaScript strings are [string]s whose characters stand for the code
      units below 256; [toLowerCase] and [trim] are the ECMAScript functions
      restricted to that range.
    - Numbers produced by [parseInt] are [JSNum]: [NaN] or an integer.  The
      integers are exact below 2^53, which is where the statements that
      depend on arithmetic are made.
    - Handlers run in a small state-and-exception monad over the Call Record
      store (an interface, as [CallLog] is either the mongoose model or the
      mock object) and a trace of the observable actions.  The telephony
      provider is an oracle.
    - Exceptions of the library calls in the reply block of [handleGather]
      and in its [catch] block are fault parameters of the handler: which
      step of the block throws, if any, and which step of the [catch] block
      throws in turn, if any. *)

From stdpp Require Import base strings gmap list.
From Stdlib Require Import ZArith Ascii String DecimalString DecimalPos Bool Lia.

Open Scope string_scope.

(** ** JavaScript primitives used by the source *)

Module JS.

(** *** Characters *)

Definition code (c : ascii) : nat := nat_of_ascii c.

Definition between (lo hi n : nat) : bool := (lo <=? n)%nat && (n <=? hi)%nat.

(** Upper-case letters among the code units below 256: A-Z, and the Latin-1
    capitals U+00C0..U+00DE without the multiplication sign U+00D7. *)
Definition isUpper (c : ascii) : bool :=
  between 65 90 (code c)
  || (between 192 222 (code c) && negb (code c =? 215)%nat).

Definition lowerChar (c : ascii) : ascii :=
  if isUpper c then ascii_of_nat (code c + 32) else c.

(** WhiteSpace and LineTerminator code units below 256: TAB, LF, VT, FF, CR,
    SP and NBSP. *)
Definition isWhiteSpace (c : ascii) : bool :=
  between 9 13 (code c) || (code c =? 32)%nat || (code c =? 160)%nat.

Definition isDigit (c : ascii) : bool := between 48 57 (code c).

Definition isDigit19 (c : ascii) : bool := between 49 57 (code c).

Definition digitVal (c : ascii) : Z := Z.of_nat (code c) - 48.

(** *** Strings *)

(** [String.prototype.toLowerCase]. *)
Fixpoint toLowerCase (s : string) : string :=
  match s with
  | EmptyString => EmptyString
  | String c r => String (lowerChar c) (toLowerCase r)
  end.

Fixpoint startsWith (s p : string) {struct p} : bool :=
  match p with
  | EmptyString => true
  | String a p' =>
      match s with
      | EmptyString => false
      | String b s' => Ascii.eqb b a && startsWith s' p'
      end
  end.

(** [String.prototype.includes]: [k] occurs in [s] as a substring. *)
Fixpoint includes (s k : string) : bool :=
  startsWith s k
  || match s with
     | EmptyString => false
     | String _ r => includes r k
     end.

Fixpoint allChars (p : ascii -> bool) (s : string) : bool :=
  match s with
  | EmptyString => true
  | String c r => p c && allChars p r
  end.

Fixpoint trimStart (s : string) : string :=
  match s with
  | EmptyString => EmptyString
  | String c r => if isWhiteSpace c then trimStart r else s
  end.

Fixpoint trimEnd (s : string) : string :=
  match s with
  | EmptyString => EmptyString
  | String c r =>
      match trimEnd r with
      | EmptyString => if isWhiteSpace c then EmptyString else String c EmptyString
      | r' => String c r'
      end
  end.

(** [String.prototype.trim]. *)
Definition trim (s : string) : string := trimEnd (trimStart s).

Definition isEmpty (s : string) : bool :=
  match s with EmptyString => true | _ => false end.

(** [x || d] on a value that is a string or [undefined]: the empty string
    and [undefined] are falsy. *)
Definition orDefault (x : option string) (d : string) : string :=
  match x with
  | Some s => if isEmpty s then d else s
  | None => d
  end.

(** [!x] on a value that is a string or [undefined]. *)
Definition falsy (x : option string) : bool :=
  match x with
  | Some s => isEmpty s
  | None => true
  end.

(** *** Numbers *)

Inductive JSNum : Type :=
| NaN : JSNum
| Num : Z -> JSNum.

(** The longest prefix of decimal digits, read as a number; [None] when
    there is no digit. *)
Fixpoint readDigits (s : string) (acc : option Z) : option Z :=
  match s with
  | EmptyString => acc
  | String c r =>
      if isDigit c
      then readDigits r (Some (10 * default 0%Z acc + digitVal c)%Z)
      else acc
  end.

(** [parseInt(s, 10)]: leading white space is skipped, an optional sign is
    read, then the longest prefix of digits; [NaN] when that prefix is
    empty. *)
Definition parseInt10 (s : string) : JSNum :=
  let s1 := trimStart s in
  let '(neg, s2) :=
    match s1 with
    | String "-"%char r => (true, r)
    | String "+"%char r => (false, r)
    | _ => (false, s1)
    end in
  match readDigits s2 None with
  | None => NaN
  | Some v => Num (if neg then - v else v)%Z
  end.

(** [n >= k], [n < k] and [n === k] against an integer constant: every
    comparison with [NaN] is false. *)
Definition geb (n : JSNum) (k : Z) : bool :=
  match n with NaN => false | Num z => (k <=? z)%Z end.

Definition ltb (n : JSNum) (k : Z) : bool :=
  match n with NaN => false | Num z => (z <? k)%Z end.

Definition strictEq (n : JSNum) (k : Z) : bool :=
  match n with NaN => false | Num z => (z =? k)%Z end.

(** [n + 1]. *)
Definition succ (n : JSNum) : JSNum :=
  match n with NaN => NaN | Num z => Num (z + 1)%Z end.

(** The number as a template literal prints it. *)
Definition numToString (n : JSNum) : string :=
  match n with
  | NaN => "NaN"
  | Num z => NilZero.string_of_int (Z.to_int z)
  end.

(** *** The E.164 pattern [/^\+[1-9]\d{1,14}$/] *)

Definition matchE164 (s : string) : bool :=
  match s with
  | String "+"%char (String d r) =>
      isDigit19 d && allChars isDigit r
      && (1 <=? String.length r)%nat && (String.length r <=? 14)%nat
  | _ => false
  end.

End JS.

Import JS.

(** ** Data model *)

(** The [adherenceStatus] enumeration of the call-log schema. *)
Inductive AdherenceStatus : Type :=
| Full | Partial | NoAdherence | Unclear | Unknown.

#[global] Instance AdherenceStatus_eq_dec : EqDecision AdherenceStatus.
Proof. solve_decision. Defined.

(** [src/config/index.js]: the part of the configuration the controller
    reads. *)
Record Config : Type := {
  webhookUrl : string;
  twilioPhoneNumber : option string
}.

(** [process.env.WEBHOOK_BASE_URL || 'http://localhost:3000']. *)
Definition defaultConfig : Config :=
  {| webhookUrl := "http://localhost:3000"; twilioPhoneNumber := None |}.

(** *** Standard messages of the controller *)

Definition MEDICATION_REMINDER_MESSAGE : string :=
  "Hello, this is a reminder from your healthcare provider to confirm your medications for the day. Please confirm if you have taken your Aspirin, Cardivol, and Metformin today.".
Definition VOICEMAIL_MESSAGE : string :=
  "We called to check on your medication but couldn't reach you. Please call us back or take your medications if you haven't done so.".
Definition POSITIVE_RESPONSE_MESSAGE : string :=
  "Thank you for confirming you've taken your medications. Have a nice day.".
Definition NEGATIVE_RESPONSE_MESSAGE : string :=
  "Thank you for letting us know. Please take your medications as prescribed. Your health provider will be notified about this. Have a nice day.".
Definition PARTIAL_RESPONSE_MESSAGE : string :=
  "Thank you for your response. I've noted that you've taken some but not all of your medications. Please remember to take all your prescribed medications. Your health provider will be notified. Have a nice day.".
Definition UNCLEAR_RESPONSE_MESSAGE : string :=
  "Thank you for your response. If you haven't taken all your medications yet, please do so as prescribed. Have a nice day.".

(** Messages that the handlers write in place. *)
Definition REASK_MESSAGE : string :=
  "I'm sorry, I didn't catch that. Could you please repeat if you've taken your medications today?".
Definition CLOSING_MESSAGE : string :=
  "We haven't received a clear response. Your healthcare provider will be notified. Please remember to take your medications as prescribed. Thank you and have a nice day.".
Definition GENERIC_REPLY_MESSAGE : string :=
  "Thank you for your response. Have a nice day.".

(** *** TwiML documents, as the [VoiceResponse] builder assembles them *)

Inductive Verb : Type :=
| Say (message : string)
| Hangup
| Redirect (url : string)
| Gather (input action speechTimeout language : string) (prompt : string).

(** *** HTTP responses *)

Inductive Body : Type :=
| Xml (twiml : list Verb)
| Text (text : string)
| JsonCall (message callSid callStatus : string)
| JsonError (error details : string).

Record Response : Type := {
  statusCode : nat;
  body : Body
}.

Definition sendXml (twiml : list Verb) : Response :=
  {| statusCode := 200; body := Xml twiml |}.

(** *** Errors ([src/middleware/errorHandler.js]) *)

Inductive ErrorType : Type :=
| VALIDATION_ERROR | DATABASE_ERROR | TWILIO_ERROR | AUTHENTICATION_ERROR
| AUTHORIZATION_ERROR | NOT_FOUND_ERROR | INTERNAL_ERROR.

Definition ErrorStatusCodes (t : ErrorType) : nat :=
  match t with
  | VALIDATION_ERROR => 400
  | DATABASE_ERROR => 500
  | TWILIO_ERROR => 502
  | AUTHENTICATION_ERROR => 401
  | AUTHORIZATION_ERROR => 403
  | NOT_FOUND_ERROR => 404
  | INTERNAL_ERROR => 500
  end.

Inductive Exn : Type :=
| AppError (message : string) (type : ErrorType)
| Error (message : string).

Definition errorMessage (e : Exn) : string :=
  match e with AppError m _ => m | Error m => m end.

(** The [statusCode] an [AppError] is constructed with. *)
Definition errorStatusCode (e : Exn) : option nat :=
  match e with AppError _ t => Some (ErrorStatusCodes t) | Error _ => None end.

(** A status is a client error when it is 4xx. *)
Definition isClientError (n : nat) : bool := between 400 499 n.

(** *** The call-log collection ([src/models/callLog.js]) *)

Record CallDoc : Type := {
  callSid : string;
  status : string;
  patientPhoneNumber : string;
  patientResponse : option string;
  adherenceStatus : AdherenceStatus;
  recordingUrl : option string;
  notificationSent : bool
}.

(** The fields a handler may pass to [create]. *)
Record NewCall : Type := {
  new_callSid : string;
  new_status : string;
  new_patientPhoneNumber : string
}.

(** The update document of [findOneAndUpdate]: the fields it sets. *)
Record Update : Type := {
  set_status : option string;
  set_patientResponse : option string;
  set_adherenceStatus : option AdherenceStatus;
  set_recordingUrl : option string
}.

Definition noUpdate : Update :=
  {| set_status := None; set_patientResponse := None;
     set_adherenceStatus := None; set_recordingUrl := None |}.

(** The result of an operation of a collaborator: the promise resolves or
    rejects. *)
Inductive Outcome (A : Type) : Type :=
| Resolved (a : A)
| Rejected (message : string).
Arguments Resolved {A} a.
Arguments Rejected {A} message.

(** The [CallLog] module exports either the mongoose model or the mock
    object: the handlers use it through [create] and [findOneAndUpdate]. *)
Class CallLog (St : Type) : Type := {
  create : NewCall -> St -> Outcome unit * St;
  findOneAndUpdate : string -> Update -> St -> Outcome unit * St
}.

(** **** [mockCallLog]: logs to the console and keeps nothing *)

#[global] Instance mockCallLog : CallLog unit := {
  create := fun _ st => (Resolved tt, st);
  findOneAndUpdate := fun _ _ st => (Resolved tt, st)
}.

(** **** The mongoose model over a collection keyed by [callSid] *)

Record Mongo : Type := {
  docs : gmap string CallDoc;
  connected : bool
}.

Definition statusEnum : list string :=
  ["Initiated"; "Ringing"; "In-Progress"; "Answered"; "Completed"; "Failed";
   "Busy"; "No Answer"; "Voicemail Left"; "SMS Sent"].

Definition inList (x : string) (l : list string) : bool :=
  existsb (String.eqb x) l.

(** Schema defaults for the fields [create] is not given. *)
Definition newDoc (n : NewCall) : CallDoc :=
  {| callSid := new_callSid n;
     status := new_status n;
     patientPhoneNumber := new_patientPhoneNumber n;
     patientResponse := None;
     adherenceStatus := Unknown;
     recordingUrl := None;
     notificationSent := false |}.

(** [create] validates the document against the schema ([required],
    [enum]) and the unique index on [callSid]. *)
Definition mongoCreate (n : NewCall) (db : Mongo) : Outcome unit * Mongo :=
  if negb (connected db) then (Rejected "not connected", db)
  else if isEmpty (new_callSid n) || isEmpty (new_patientPhoneNumber n)
          || negb (inList (new_status n) statusEnum)
  then (Rejected "CallLog validation failed", db)
  else match docs db !! new_callSid n with
       | Some _ => (Rejected "E11000 duplicate key error", db)
       | None =>
           (Resolved tt,
            {| docs := <[new_callSid n := newDoc n]> (docs db);
               connected := connected db |})
       end.

Definition applyUpdate (u : Update) (d : CallDoc) : CallDoc :=
  {| callSid := callSid d;
     status := default (status d) (set_status u);
     patientPhoneNumber := patientPhoneNumber d;
     patientResponse :=
       match set_patientResponse u with Some r => Some r | None => patientResponse d end;
     adherenceStatus := default (adherenceStatus d) (set_adherenceStatus u);
     recordingUrl :=
       match set_recordingUrl u with Some r => Some r | None => recordingUrl d end;
     notificationSent := notificationSent d |}.

(** [findOneAndUpdate] without [upsert] and without [runValidators]: the
    document with that [callSid], when there is one, gets the fields set. *)
Definition mongoFindOneAndUpdate (sid : string) (u : Update) (db : Mongo)
  : Outcome unit * Mongo :=
  if negb (connected db) then (Rejected "not connected", db)
  else (Resolved tt,
        {| docs := alter (applyUpdate u) sid (docs db);
           connected := connected db |}).

#[global] Instance mongoCallLog : CallLog Mongo := {
  create := mongoCreate;
  findOneAndUpdate := mongoFindOneAndUpdate
}.

(** *** The telephony provider *)

Record Call : Type := {
  sid : string;
  call_status : string
}.

Record CallParams : Type := {
  cp_url : string;
  cp_to : string;
  cp_from : option string;
  cp_statusCallback : string;
  cp_statusCallbackEvent : list string;
  cp_statusCallbackMethod : string
}.

(** The REST client of the provider, as an oracle. *)
Record TwilioClient : Type := {
  calls_create : CallParams -> Outcome Call;
  messages_create : string -> string -> option string -> Outcome unit;
  recordings_list : string -> Outcome (list string)
}.

(** ** Observable actions *)

Inductive LogLevel : Type := INFO | WARN | ERROR.

Inductive Event : Type :=
| CallsCreate (params : CallParams)
    (** [client.calls.create] *)
| MessagesCreate (body to : string) (from : option string)
    (** [client.messages.create] *)
| RecordingsList (callSid : string)
    (** [client.recordings.list] *)
| SendSms (phoneNumber : option string) (message : string)
    (** [twilioService.sendSms] is entered *)
| DbCreate (doc : NewCall)
    (** [CallLog.create] *)
| DbUpdate (callSid : string) (update : Update)
    (** [CallLog.findOneAndUpdate] *)
| Log (level : LogLevel) (event : string)
      (adherence : option AdherenceStatus) (retryCount : option JSNum)
    (** [logger.info], [logger.warn], [logger.error] with the [event],
        [adherenceStatus] and [retryCount] fields of the entry *).

(** ** The handler monad: store state, trace, exceptions *)

Section Monad.

Context {St : Type}.

Record Env : Type := {
  store : St;
  trace : list Event
}.

Inductive Res (A : Type) : Type :=
| Ok (a : A)
| Throw (e : Exn).
#[global] Arguments Ok {A} a.
#[global] Arguments Throw {A} e.

Definition M (A : Type) : Type := Env -> Res A * Env.

Definition ret {A} (a : A) : M A := fun env => (Ok a, env).

Definition bind {A B} (m : M A) (k : A -> M B) : M B :=
  fun env =>
    match m env with
    | (Ok a, env') => k a env'
    | (Throw e, env') => (Throw e, env')
    end.

Definition throw {A} (e : Exn) : M A := fun env => (Throw e, env).

(** [try { body } catch (error) { handler }] *)
Definition tryCatch {A} (body : M A) (handler : Exn -> M A) : M A :=
  fun env =>
    match body env with
    | (Ok a, env') => (Ok a, env')
    | (Throw e, env') => handler e env'
    end.

Definition emit (e : Event) : M unit :=
  fun env => (Ok tt, {| store := store env; trace := trace env ++ [e] |}).

(** An operation of the store: the action is recorded, the store moves to
    its next state, and a rejected promise is thrown at the [await]. *)
Definition await_store (e : Event) (op : St -> Outcome unit * St) : M unit :=
  fun env =>
    let '(o, st') := op (store env) in
    let env' := {| store := st'; trace := trace env ++ [e] |} in
    match o with
    | Resolved _ => (Ok tt, env')
    | Rejected m => (Throw (Error m), env')
    end.

(** A request to the provider. *)
Definition await_client {A} (e : Event) (o : Outcome A) : M A :=
  fun env =>
    let env' := {| store := store env; trace := trace env ++ [e] |} in
    match o with
    | Resolved a => (Ok a, env')
    | Rejected m => (Throw (Error m), env')
    end.

End Monad.

Arguments Env : clear implicits.
Arguments M : clear implicits.

#[global] Instance M_ret {St} : MRet (M St) := fun A a => ret a.
#[global] Instance M_bind {St} : MBind (M St) := fun A B k m => bind m k.

(** ** [src/services/twilioService.js] *)

Section TwilioService.

Context {St : Type}.
Variable config : Config.
Variable client : TwilioClient.

Definition INVALID_PHONE : string :=
  "Invalid phone number format. Must be in E.164 format.".

(** The value of a string that has passed the truthiness test. *)
Definition the (x : option string) : string := default EmptyString x.

Definition makeCall (phoneNumber : option string) : M St Call :=
  tryCatch
    (if falsy phoneNumber || negb (matchE164 (the phoneNumber))
     then throw (Error INVALID_PHONE)
     else
       let params :=
         {| cp_url := webhookUrl config ++ "/api/twilio/voice";
            cp_to := the phoneNumber;
            cp_from := twilioPhoneNumber config;
            cp_statusCallback := webhookUrl config ++ "/api/twilio/status";
            cp_statusCallbackEvent := ["initiated"; "ringing"; "answered"; "completed"];
            cp_statusCallbackMethod := "POST" |} in
       call ← await_client (CallsCreate params) (calls_create client params);
       ret call)
    (fun error => throw error).

Definition sendSms (phoneNumber : option string) (message : string) : M St unit :=
  emit (SendSms phoneNumber message);;
  tryCatch
    (if falsy phoneNumber || negb (matchE164 (the phoneNumber))
     then throw (Error INVALID_PHONE)
     else if isEmpty message || isEmpty (trim message)
     then throw (Error "Message cannot be empty.")
     else
       await_client
         (MessagesCreate message (the phoneNumber) (twilioPhoneNumber config))
         (messages_create client message (the phoneNumber) (twilioPhoneNumber config)))
    (fun error => throw error).

(** The builder assembles a [Gather] with the prompt and a [Redirect]; the
    markup written out in the [catch] branch has the same verbs. *)
Definition generateTwiml (message : string) (nextRetryCount : JSNum) : list Verb :=
  [ Gather "speech" (webhookUrl config ++ "/api/twilio/gather") "auto" "en-US" message;
    Redirect (webhookUrl config ++ "/api/twilio/voice?retryCount="
              ++ numToString nextRetryCount) ].

Definition getRecordingUrl (callSid : string) : M St (option string) :=
  tryCatch
    (recordings ← await_client (RecordingsList callSid) (recordings_list client callSid);
     ret (match recordings with
          | uri :: _ => Some uri
          | [] => None
          end))
    (fun error => ret None).

End TwilioService.

(** ** [src/controllers/callController.js] *)

(** The fields of [req.body] and [req.query] that the handlers read, each a
    string or absent, as a form-encoded webhook with single-valued fields
    delivers them.  The provider sends [CallSid] and [CallStatus] with every
    webhook. *)
Record InitiateRequest : Type := {
  phoneNumber : option string
}.

Record VoiceRequest : Type := {
  voice_retryCount : option string
}.

Record GatherRequest : Type := {
  SpeechResult : option string;
  gather_CallSid : string;
  gather_retryCount : option string
}.

Record StatusRequest : Type := {
  CallSid : string;
  CallStatus : string;
  To : option string;
  AnsweredBy : option string;
  CallDuration : option string
}.

(** The steps of the inner [try] block of [handleGather] at which an
    exception can be raised. *)
Inductive ReplyStep : Type := AtSay | AtLog | AtHangup | AtSend.

#[global] Instance ReplyStep_eq_dec : EqDecision ReplyStep.
Proof. solve_decision. Defined.

(** The steps of the [catch] block of that [try] at which an exception can
    be raised in turn: [new VoiceResponse()], [say], [hangup], and
    [res.type]/[res.send]. *)
Inductive FallbackStep : Type :=
  AtFallbackNew | AtFallbackSay | AtFallbackHangup | AtFallbackSend.

#[global] Instance FallbackStep_eq_dec : EqDecision FallbackStep.
Proof. solve_decision. Defined.

Definition positiveKeywords : list string :=
  ["yes"; "yeah"; "yep"; "yup"; "taken"; "did"; "have"; "already"; "completed"].
Definition negativeKeywords : list string :=
  ["no"; "not"; "haven't"; "didn't"; "don't"; "forgot"; "later"; "missed"].
Definition medicationKeywords : list string :=
  ["medication"; "medicine"; "pill"; "drug"; "tablet"; "aspirin"; "cardivol"; "metformin"].

(** [keywords.some(keyword => responseLower.includes(keyword))] *)
Definition someIncluded (keywords : list string) (responseLower : string) : bool :=
  existsb (fun keyword => includes responseLower keyword) keywords.

(** The [if]/[else if] chain of [handleGather].  The five branches differ
    only in the message they speak and the status they log and assign:
    the chain selects that pair. *)
Definition analysis (patientResponse : string) : AdherenceStatus * string :=
  let responseLower := toLowerCase patientResponse in
  let hasMedicationContext := someIncluded medicationKeywords responseLower in
  let isPositive := someIncluded positiveKeywords responseLower in
  let isNegative := someIncluded negativeKeywords responseLower in
  if isNegative && negb isPositive then (NoAdherence, NEGATIVE_RESPONSE_MESSAGE)
  else if isPositive && negb isNegative then (Full, POSITIVE_RESPONSE_MESSAGE)
  else if isPositive && isNegative then (Partial, PARTIAL_RESPONSE_MESSAGE)
  else if negb hasMedicationContext then (Unclear, UNCLEAR_RESPONSE_MESSAGE)
  else (Unclear, UNCLEAR_RESPONSE_MESSAGE).

(** The verdict of the classification step. *)
Definition classify (patientResponse : string) : AdherenceStatus :=
  fst (analysis patientResponse).

Definition UNANSWERED : list string :=
  ["no-answer"; "busy"; "failed"; "canceled"; "completed"].

Section Controller.

Context {St : Type} `{CallLog St}.
Variable config : Config.
Variable client : TwilioClient.

Definition logger (level : LogLevel) (event : string)
    (adherence : option AdherenceStatus) (retryCount : option JSNum) : M St unit :=
  emit (Log level event adherence retryCount).

Definition CallLog_create (doc : NewCall) : M St unit :=
  await_store (DbCreate doc) (create doc).

Definition CallLog_findOneAndUpdate (callSid : string) (update : Update) : M St unit :=
  await_store (DbUpdate callSid update) (findOneAndUpdate callSid update).

Definition initiateCall (req : InitiateRequest) : M St Response :=
  tryCatch
    (let phoneNumber := phoneNumber req in
     (if falsy phoneNumber
      then throw (AppError "Phone number is required" VALIDATION_ERROR)
      else ret tt);;
     (if negb (matchE164 (the phoneNumber))
      then throw (AppError "Phone number must be in E.164 format (e.g., +12345678900)"
                           VALIDATION_ERROR)
      else ret tt);;
     call ← makeCall config client phoneNumber;
     logger INFO "call_initiated" None None;;
     tryCatch
       (CallLog_create
          {| new_callSid := sid call;
             new_status := "Initiated";
             new_patientPhoneNumber := the phoneNumber |})
       (fun dbError => logger WARN "database_error" None None);;
     ret {| statusCode := 200;
            body := JsonCall "Call initiated successfully" (sid call) (call_status call) |})
    (fun error =>
       ret {| statusCode := 500;
              body := JsonError "Failed to initiate call" (errorMessage error) |}).

Definition handleVoiceCall (req : VoiceRequest) : M St Response :=
  tryCatch
    (let retryCount := parseInt10 (orDefault (voice_retryCount req) "0") in
     if geb retryCount 2
     then
       let response := [Say CLOSING_MESSAGE; Hangup] in
       logger INFO "max_retries_reached" None (Some retryCount);;
       ret (sendXml response)
     else
       let message :=
         if strictEq retryCount 0 then MEDICATION_REMINDER_MESSAGE else REASK_MESSAGE in
       let twiml := generateTwiml config message (succ retryCount) in
       logger INFO "voice_call_handling" None (Some retryCount);;
       ret (sendXml twiml))
    (fun error =>
       logger ERROR "voice_call_error" None None;;
       ret {| statusCode := 500; body := Text "Error processing call" |}).

(** An exception raised at step [s] of the inner [try] block. *)
Definition failAt (fault : option ReplyStep) (s : ReplyStep) : M St unit :=
  if decide (fault = Some s) then throw (Error "reply step failed") else ret tt.

(** An exception raised at step [s] of the [catch] block of that [try]. *)
Definition failAgainAt (again : option FallbackStep) (s : FallbackStep) : M St unit :=
  if decide (again = Some s) then throw (Error "fallback step failed") else ret tt.

Definition handleGather (fault : option ReplyStep) (again : option FallbackStep)
    (req : GatherRequest) : M St Response :=
  tryCatch
    (let patientResponse := orDefault (SpeechResult req) EmptyString in
     let callSid := gather_CallSid req in
     if isEmpty patientResponse || isEmpty (trim patientResponse)
     then
       let currentRetryCount := parseInt10 (orDefault (gather_retryCount req) "0") in
       let twiml :=
         [Redirect (webhookUrl config ++ "/api/twilio/voice?retryCount="
                    ++ numToString (succ currentRetryCount))] in
       logger INFO "no_speech_detected" None (Some (succ currentRetryCount));;
       ret (sendXml twiml)
     else
       logger INFO "response_received" None None;;
       tryCatch
         (CallLog_findOneAndUpdate callSid
            {| set_status := Some "Answered";
               set_patientResponse := Some patientResponse;
               set_adherenceStatus := None;
               set_recordingUrl := None |})
         (fun dbError => logger WARN "database_error" None None);;
       let '(verdict, message) := analysis patientResponse in
       tryCatch
         (failAt fault AtSay;;
          let twiml := [Say message] in
          failAt fault AtLog;;
          logger INFO "adherence_analysis" (Some verdict) None;;
          let adherenceStatus := verdict in
          failAt fault AtHangup;;
          let twiml := (twiml ++ [Hangup])%list in
          failAt fault AtSend;;
          ret (sendXml twiml))
         (fun error =>
            failAgainAt again AtFallbackNew;;
            let fallbackTwiml := [] in
            failAgainAt again AtFallbackSay;;
            let fallbackTwiml := (fallbackTwiml ++ [Say GENERIC_REPLY_MESSAGE])%list in
            failAgainAt again AtFallbackHangup;;
            let fallbackTwiml := (fallbackTwiml ++ [Hangup])%list in
            failAgainAt again AtFallbackSend;;
            ret (sendXml fallbackTwiml)))
    (fun error =>
       ret {| statusCode := 500; body := Text "Error processing response" |}).

(** The SMS fallback block, written out in both branches of the status
    handler. *)
Definition smsFallback (CallSid : string) (To : option string) : M St unit :=
  tryCatch
    (sendSms config client To VOICEMAIL_MESSAGE;;
     tryCatch
       (CallLog_findOneAndUpdate CallSid
          {| set_status := Some "SMS Sent";
             set_patientResponse := None;
             set_adherenceStatus := None;
             set_recordingUrl := None |})
       (fun dbError => ret tt))
    (fun smsError => ret tt).

Definition handleStatusCallback (req : StatusRequest) : M St Response :=
  tryCatch
    (let CallSid := CallSid req in
     let CallStatus := CallStatus req in
     let To := To req in
     logger INFO "call_status_update" None None;;
     tryCatch
       (CallLog_findOneAndUpdate CallSid
          {| set_status := Some CallStatus;
             set_patientResponse := None;
             set_adherenceStatus := None;
             set_recordingUrl := None |})
       (fun dbError => logger WARN "database_error" None None);;
     (if inList CallStatus UNANSWERED
      then
        let answeredByHuman := bool_decide (AnsweredBy req = Some "human") in
        let callDuration := parseInt10 (orDefault (CallDuration req) "0") in
        if String.eqb CallStatus "completed" && (negb answeredByHuman || ltb callDuration 5)
        then smsFallback CallSid To
        else if negb (String.eqb CallStatus "completed")
        then smsFallback CallSid To
        else ret tt
      else ret tt);;
     (if String.eqb CallStatus "completed"
      then
        tryCatch
          (recordingUrl ← getRecordingUrl client CallSid;
           match recordingUrl with
           | Some url =>
               if isEmpty url then ret tt
               else
                 tryCatch
                   (CallLog_findOneAndUpdate CallSid
                      {| set_status := None;
                         set_patientResponse := None;
                         set_adherenceStatus := None;
                         set_recordingUrl := Some url |})
                   (fun dbError => ret tt)
           | None => ret tt
           end)
          (fun recordingError => ret tt)
      else ret tt);;
     ret {| statusCode := 200; body := Text "Status received" |})
    (fun error =>
       ret {| statusCode := 500; body := Text "Error processing status" |}).

End Controller.

(** Running a handler from a store state with an empty trace. *)
Definition run {St A} (m : M St A) (st : St) : Res A * Env St :=
  m {| store := st; trace := [] |}.

Definition result {St A} (r : Res A * Env St) : Res A := fst r.
Definition actions {St A} (r : Res A * Env St) : list Event := trace (snd r).
Definition final {St A} (r : Res A * Env St) : St := store (snd r).

(** ** [getCallLogs] and the reads of the store *)

(** The value of a hexadecimal digit. *)
Definition hexVal (c : ascii) : option Z :=
  if isDigit c then Some (digitVal c)
  else if between 97 102 (code c) then Some (Z.of_nat (code c) - 87)%Z
  else if between 65 70 (code c) then Some (Z.of_nat (code c) - 55)%Z
  else None.

Fixpoint readHexDigits (s : string) (acc : option Z) : option Z :=
  match s with
  | EmptyString => acc
  | String c r =>
      match hexVal c with
      | Some v => readHexDigits r (Some (16 * default 0%Z acc + v)%Z)
      | None => acc
      end
  end.

(** [parseInt(x)] without a radix, on a string or [undefined]: as
    [parseInt(x, 10)], but after the sign a prefix [0x] or [0X] switches to
    radix 16; [undefined] is read as the text [undefined], which has no
    digit. *)
Definition parseInt (x : option string) : JSNum :=
  match x with
  | None => NaN
  | Some s =>
      let s1 := trimStart s in
      let '(neg, s2) :=
        match s1 with
        | String "-"%char r => (true, r)
        | String "+"%char r => (false, r)
        | _ => (false, s1)
        end in
      let digits :=
        match s2 with
        | String "0"%char (String "x"%char r) => readHexDigits r None
        | String "0"%char (String "X"%char r) => readHexDigits r None
        | _ => readDigits s2 None
        end in
      match digits with
      | None => NaN
      | Some v => Num (if neg then - v else v)%Z
      end
  end.

(** [n || d] on a number: [NaN] and [0] are falsy. *)
Definition orNumber (n : JSNum) (d : Z) : Z :=
  match n with
  | NaN => d
  | Num z => if (z =? 0)%Z then d else z
  end.

(** [Math.ceil(a / b)] for a divisor that is not 0. *)
Definition ceilDiv (a b : Z) : Z := (- ((- a) / b))%Z.

(** What [CallLog.find()] returns: the mongoose model gives a query that
    can be sorted, skipped and limited before it is awaited (here with the
    sort [{ timestamp: -1 }] of the handler); the mock's [find] is an
    [async] function, which gives a promise. *)
Inductive FindValue : Type :=
| QueryObject (exec : Z -> Z -> Outcome (list CallDoc))
| PromiseObject (value : Outcome (list CallDoc)).

Class CallLogReads (St : Type) : Type := {
  find : St -> FindValue;
  countDocuments : St -> Outcome Z
}.

(** [mockCallLog.find] and [mockCallLog.countDocuments]. *)
#[global] Instance mockCallLogReads : CallLogReads unit := {
  find := fun _ => PromiseObject (Resolved []);
  countDocuments := fun _ => Resolved 0%Z
}.

Record LogsRequest : Type := {
  logs_page : option string;
  logs_limit : option string
}.

Inductive LogsBody : Type :=
| LogsPage (logs : list CallDoc) (total page limit pages : Z)
| LogsError (error : string).

Record LogsReply : Type := {
  logs_statusCode : nat;
  logs_body : LogsBody
}.

Section CallLogs.

Context {St : Type} `{CallLogReads St}.

(** An awaited read: a rejected promise is thrown. *)
Definition await_read {A} (o : St -> Outcome A) : M St A :=
  fun env =>
    match o (store env) with
    | Resolved a => (Ok a, env)
    | Rejected m => (Throw (Error m), env)
    end.

(** [await CallLog.find().sort({ timestamp: -1 }).skip(skip).limit(limit)]:
    calling [sort] on a value that has no such method throws. *)
Definition CallLog_find_page (skip limit : Z) : M St (list CallDoc) :=
  await_read (fun st =>
    match find st with
    | QueryObject exec => exec skip limit
    | PromiseObject _ => Rejected "CallLog.find(...).sort is not a function"
    end).

Definition getCallLogs (req : LogsRequest) : M St LogsReply :=
  tryCatch
    (let page := orNumber (parseInt (logs_page req)) 1 in
     let limit := orNumber (parseInt (logs_limit req)) 10 in
     let skip := ((page - 1) * limit)%Z in
     logs ← CallLog_find_page skip limit;
     total ← await_read countDocuments;
     ret {| logs_statusCode := 200;
            logs_body := LogsPage logs total page limit (ceilDiv total limit) |})
    (fun error =>
       ret {| logs_statusCode := 500;
              logs_body := LogsError "Failed to retrieve call logs" |}).

End CallLogs.

(** ** [src/utils/logger.js] *)

Definition LogLevels : list string := ["ERROR"; "WARN"; "INFO"; "DEBUG"].

(** [process.env.NODE_ENV || 'development'], then the [switch]. *)
Definition getMinLogLevel (NODE_ENV : option string) : string :=
  let env := orDefault NODE_ENV "development" in
  if String.eqb env "production" then "INFO"
  else if String.eqb env "test" then "ERROR"
  else "DEBUG".

(** [Array.prototype.indexOf]: the first position, or -1. *)
Fixpoint indexOf (l : list string) (x : string) : Z :=
  match l with
  | [] => (-1)%Z
  | y :: r =>
      if String.eqb y x then 0%Z
      else let i := indexOf r x in if (i <? 0)%Z then (-1)%Z else (i + 1)%Z
  end.

Definition shouldLog (NODE_ENV : option string) (level : string) : bool :=
  (indexOf LogLevels level <=? indexOf LogLevels (getMinLogLevel NODE_ENV))%Z.






(** ** The [errorHandler] middleware *)

(** The value the middleware is given: an [AppError] built with one of the
    [ErrorTypes] (its [statusCode] is then the entry of [ErrorStatusCodes]),
    or another error with its [message] and [stack]. *)
Inductive JSError : Type :=
| AnAppError (message : string) (type : ErrorType) (details : option string)
| AnError (message stack : option string).

(** The JSON the middleware sends; [reply_details] is [None] when the key
    is left out. *)
Record ErrorReply : Type := {
  reply_statusCode : nat;
  reply_type : ErrorType;
  reply_message : string;
  reply_requestId : string;
  reply_details : option (option string)
}.

(** [headers['x-request-id'] || headers['x-correlation-id'] || generated] *)
Definition requestIdOf (xRequestId xCorrelationId : option string) (generated : string)
  : string :=
  orDefault xRequestId (orDefault xCorrelationId generated).

Definition errorHandler (NODE_ENV xRequestId xCorrelationId : option string)
    (generated : string) (err : JSError) : ErrorReply :=
  let requestId := requestIdOf xRequestId xCorrelationId generated in
  let development := bool_decide (NODE_ENV = Some "development") in
  let '(message, type, details) :=
    match err with
    | AnAppError m t d => (m, t, d)
    | AnError m stack =>
        (orDefault m "An unexpected error occurred", INTERNAL_ERROR,
         if development then stack else None)
    end in
  {| reply_statusCode := ErrorStatusCodes type;
     reply_type := type;
     reply_message := message;
     reply_requestId := requestId;
     reply_details := if development then Some details else None |}.

(** ** Vocabulary of the statements *)

(** *** Matching keywords *)

(** [k] occurs in [t] up to the case of the letters. *)
Definition occursIgnoringCase (k t : string) : Prop :=
  exists a u b, t = a ++ u ++ b /\ toLowerCase u = toLowerCase k.

(** Some keyword of the set occurs in the transcript, ignoring case. *)
Definition matches (keywords : list string) (t : string) : Prop :=
  exists k, In k keywords /\ occursIgnoringCase k t.

(** The transcript is treated as no speech: [undefined], empty, or white
    space only. *)
Definition noSpeech (x : option string) : bool :=
  isEmpty (orDefault x EmptyString) || isEmpty (trim (orDefault x EmptyString)).

(** The template spoken for a verdict; [Unclear] and [Unknown] share one. *)
Definition replyTemplate (a : AdherenceStatus) : string :=
  match a with
  | Full => POSITIVE_RESPONSE_MESSAGE
  | Partial => PARTIAL_RESPONSE_MESSAGE
  | NoAdherence => NEGATIVE_RESPONSE_MESSAGE
  | Unclear | Unknown => UNCLEAR_RESPONSE_MESSAGE
  end.

(** *** Reading a response and a trace *)

(** The messages a response speaks. *)
Definition said (r : Response) : list string :=
  match body r with
  | Xml twiml =>
      flat_map (fun v => match v with
                         | Say m => [m]
                         | Gather _ _ _ _ m => [m]
                         | _ => []
                         end) twiml
  | _ => []
  end.

(** The verdicts the classification step has logged. *)
Definition verdicts (tr : list Event) : list AdherenceStatus :=
  flat_map (fun e => match e with
                     | Log _ "adherence_analysis" (Some a) _ => [a]
                     | _ => []
                     end) tr.

(** The entries into the fallback dispatcher, and their number. *)
Definition dispatched (tr : list Event) : list (option string * string) :=
  flat_map (fun e => match e with
                     | SendSms p m => [(p, m)]
                     | _ => []
                     end) tr.


Definition dispatches (tr : list Event) : nat := List.length (dispatched tr).

(** The text messages handed to the provider. *)
Definition messagesSent (tr : list Event) : list (string * string) :=
  flat_map (fun e => match e with
                     | MessagesCreate b t _ => [(t, b)]
                     | _ => []
                     end) tr.

(** The values written to the [status] field, in order. *)
Definition statusWrites (tr : list Event) : list string :=
  flat_map (fun e => match e with
                     | DbUpdate _ u =>
                         match set_status u with Some s => [s] | None => [] end
                     | _ => []
                     end) tr.

(** The values written to the [adherenceStatus] field. *)
Definition adherenceWrites (tr : list Event) : list AdherenceStatus :=
  flat_map (fun e => match e with
                     | DbUpdate _ u =>
                         match set_adherenceStatus u with Some s => [s] | None => [] end
                     | _ => []
                     end) tr.

(** What reaches the provider and the service boundary: everything but the
    store operations and the log entries. *)
Definition providerActions (tr : list Event) : list Event :=
  flat_map (fun e => match e with
                     | CallsCreate _ | MessagesCreate _ _ _ | RecordingsList _
                     | SendSms _ _ => [e]
                     | _ => []
                     end) tr.

(** *** What the gather handler issues *)

(** The update a gather result with speech issues. *)
Definition answeredUpdate (req : GatherRequest) : Update :=
  {| set_status := Some "Answered";
     set_patientResponse := Some (orDefault (SpeechResult req) EmptyString);
     set_adherenceStatus := None;
     set_recordingUrl := None |}.

(** The warning logged when a store operation is rejected. *)
Definition warnIfRejected (o : Outcome unit) : list Event :=
  match o with
  | Resolved _ => []
  | Rejected _ => [Log WARN "database_error" None None]
  end.

(** The log entries of the reply step that precede an exception at [fault]. *)
Definition replyLog (fault : option ReplyStep) (verdict : AdherenceStatus) : list Event :=
  match fault with
  | Some AtSay | Some AtLog => []
  | _ => [Log INFO "adherence_analysis" (Some verdict) None]
  end.

(** The document sent: the template of the verdict, or the generic reply
    after an exception. *)
Definition replyTwiml (fault : option ReplyStep) (verdict : AdherenceStatus) : list Verb :=
  match fault with
  | Some _ => [Say GENERIC_REPLY_MESSAGE; Hangup]
  | None => [Say (replyTemplate verdict); Hangup]
  end.

(** The answer to a gather result with speech: that document, or the error
    text of the outer [catch] when the reply block and its [catch] block
    both raise an exception. *)
Definition replyResponse (fault : option ReplyStep) (again : option FallbackStep)
    (verdict : AdherenceStatus) : Response :=
  match fault, again with
  | Some _, Some _ => {| statusCode := 500; body := Text "Error processing response" |}
  | _, _ => sendXml (replyTwiml fault verdict)
  end.

(** The action URLs of the gather verbs of a document. *)
Definition gatherActions (twiml : list Verb) : list string :=
  flat_map (fun v => match v with
                     | Gather _ action _ _ _ => [action]
                     | _ => []
                     end) twiml.

(** *** Traces up to the warnings about the store *)

(** The entries of a trace that do not report a store failure. *)
Definition steady (e : Event) : bool :=
  match e with
  | Log WARN _ _ _ => false
  | _ => true
  end.

(** The actions issued: the trace without those warnings. *)
Definition issued (tr : list Event) : list Event := List.filter steady tr.

(** *** Status callbacks *)

(** [parseInt(req.body.CallDuration || '0', 10)] *)
Definition callDuration (req : StatusRequest) : JSNum :=
  parseInt10 (orDefault (CallDuration req) "0").

(** The condition under which the handler enters an SMS fallback block. *)
Definition fallbackDue (req : StatusRequest) : bool :=
  inList (CallStatus req) UNANSWERED
  && ((String.eqb (CallStatus req) "completed"
       && (negb (bool_decide (AnsweredBy req = Some "human")) || ltb (callDuration req) 5))
      || negb (String.eqb (CallStatus req) "completed")).

(** The fallback condition in the words of the specification: a terminal
    status without success, or a completed call that was not answered by a
    person or lasted less than five seconds. *)
Definition fallbackCondition (req : StatusRequest) : Prop :=
  In (CallStatus req) ["no-answer"; "busy"; "failed"; "canceled"]
  \/ (CallStatus req = "completed"
      /\ (AnsweredBy req <> Some "human"
          \/ exists d, callDuration req = Num d /\ (d < 5)%Z)).

(** The update documents [{ status }] and [{ recordingUrl }]. *)
Definition statusUpdate (s : string) : Update :=
  {| set_status := Some s; set_patientResponse := None;
     set_adherenceStatus := None; set_recordingUrl := None |}.

Definition recordingUpdate (url : string) : Update :=
  {| set_status := None; set_patientResponse := None;
     set_adherenceStatus := None; set_recordingUrl := Some url |}.

Section Agreement.

Context {St1 St2 : Type}.

(** Two computations over two stores agree: from traces with the same
    issued actions they give the same result and the same issued actions. *)
Definition agree {A} (m1 : M St1 A) (m2 : M St2 A) : Prop :=
  forall env1 env2,
    issued (trace env1) = issued (trace env2) ->
    fst (m1 env1) = fst (m2 env2)
    /\ issued (trace (snd (m1 env1))) = issued (trace (snd (m2 env2))).

End Agreement.

Section Vocabulary.

Variable config : Config.
Variable client : TwilioClient.

(** The URL of the voice entry with a retry count. *)
Definition voiceRedirect (n : JSNum) : string :=
  webhookUrl config ++ "/api/twilio/voice?retryCount=" ++ numToString n.

(** The provider accepts the fallback message for this destination. *)
Definition smsAccepted (to : option string) : bool :=
  negb (falsy to || negb (matchE164 (the to)))
  && match messages_create client VOICEMAIL_MESSAGE (the to) (twilioPhoneNumber config) with
     | Resolved _ => true
     | Rejected _ => false
     end.

(** What an SMS fallback block issues. *)
Definition fallbackTrace (callSid : string) (to : option string) : list Event :=
  SendSms to VOICEMAIL_MESSAGE
  :: if falsy to || negb (matchE164 (the to)) then []
     else MessagesCreate VOICEMAIL_MESSAGE (the to) (twilioPhoneNumber config)
          :: if smsAccepted to then [DbUpdate callSid (statusUpdate "SMS Sent")] else [].

(** The first recording, when the provider lists one with a URI. *)
Definition firstRecording (callSid : string) : option string :=
  match recordings_list client callSid with
  | Resolved (url :: _) => if isEmpty url then None else Some url
  | _ => None
  end.

(** What the recording block issues. *)
Definition recordingTrace (callSid : string) : list Event :=
  RecordingsList callSid
  :: match firstRecording callSid with
     | Some url => [DbUpdate callSid (recordingUpdate url)]
     | None => []
     end.

(** What the status handler issues. *)
Definition statusTrace (req : StatusRequest) : list Event :=
  ([Log INFO "call_status_update" None None;
    DbUpdate (CallSid req) (statusUpdate (CallStatus req))]
   ++ (if fallbackDue req then fallbackTrace (CallSid req) (To req) else [])
   ++ (if String.eqb (CallStatus req) "completed" then recordingTrace (CallSid req) else []))%list.

(** What a status callback does to the document of its call. *)
Definition statusEffect (req : StatusRequest) (d : CallDoc) : CallDoc :=
  let d1 := applyUpdate (statusUpdate (CallStatus req)) d in
  let d2 :=
    if fallbackDue req && smsAccepted (To req)
    then applyUpdate (statusUpdate "SMS Sent") d1 else d1 in
  if String.eqb (CallStatus req) "completed"
  then match firstRecording (CallSid req) with
       | Some url => applyUpdate (recordingUpdate url) d2
       | None => d2
       end
  else d2.

End Vocabulary.

(** *** Decimal numerals *)

(** The value of a numeral read from its most significant digit, after the
    digits already read. *)
Fixpoint uintValue (d : Decimal.uint) (acc : Z) : Z :=
  match d with
  | Decimal.Nil => acc
  | Decimal.D0 l => uintValue l (10 * acc + 0)
  | Decimal.D1 l => uintValue l (10 * acc + 1)
  | Decimal.D2 l => uintValue l (10 * acc + 2)
  | Decimal.D3 l => uintValue l (10 * acc + 3)
  | Decimal.D4 l => uintValue l (10 * acc + 4)
  | Decimal.D5 l => uintValue l (10 * acc + 5)
  | Decimal.D6 l => uintValue l (10 * acc + 6)
  | Decimal.D7 l => uintValue l (10 * acc + 7)
  | Decimal.D8 l => uintValue l (10 * acc + 8)
  | Decimal.D9 l => uintValue l (10 * acc + 9)
  end%Z.

(** *** Phone numbers *)

(** E.164 in the words of the specification: a plus sign followed by 1 to
    15 digits, the first of them 1 to 9. *)
Definition specE164 (s : string) : bool :=
  match s with
  | String "+"%char (String d r) =>
      isDigit19 d && allChars isDigit r && (String.length r <=? 14)%nat
  | _ => false
  end.

(** *** A sample call *)

(** A provider that accepts every request and lists one recording. *)
Definition acceptingClient : TwilioClient :=
  {| calls_create := fun _ => Resolved {| sid := "CA1"; call_status := "queued" |};
     messages_create := fun _ _ _ => Resolved tt;
     recordings_list := fun _ => Resolved ["/2010-04-01/Recordings/RE1.json"] |}.

(** The collection after the call [CA1] to [+12345678900] was initiated. *)
Definition sampleDb : Mongo :=
  {| docs := {[ "CA1" := newDoc {| new_callSid := "CA1"; new_status := "Initiated";
                                   new_patientPhoneNumber := "+12345678900" |} ]};
     connected := true |}.

(** A completed call for which the provider reports no human answer. *)
Definition voicemailEvent : StatusRequest :=
  {| CallSid := "CA1"; CallStatus := "completed"; To := Some "+12345678900";
     AnsweredBy := Some "machine_start"; CallDuration := Some "10" |}.

(** A completed call answered by a person that lasted ten seconds. *)
Definition humanEvent : StatusRequest :=
  {| CallSid := "CA1"; CallStatus := "completed"; To := Some "+12345678900";
     AnsweredBy := Some "human"; CallDuration := Some "10" |}.

(** The patient of the sample call says that the pills were taken. *)
Definition spokenYes : GatherRequest :=
  {| SpeechResult := Some "yes I took my pills"; gather_CallSid := "CA1";
     gather_retryCount := None |}.


(** The statement that a second application of an event whose first
    application dispatched hands no message to the provider and does not
    write SMS Sent again. *)
Definition secondApplicationSilent (config : Config) (client : TwilioClient)
    (req : StatusRequest) (db : Mongo) : Prop :=
  let r1 := run (handleStatusCallback config client req) db in
  let r2 := run (handleStatusCallback config client req) (final r1) in
  dispatches (actions r1) = 1 ->
  messagesSent (actions r2) = [] /\ ~ In "SMS Sent" (statusWrites (actions r2)).

(** *** Service calls *)

(** The number is a string that matches the E.164 pattern. *)
Definition validNumber (x : option string) : bool :=
  match x with
  | Some p => matchE164 p
  | None => false
  end.

(** The message is neither empty nor white space only. *)
Definition nonBlank (s : string) : bool := negb (isEmpty s || isEmpty (trim s)).

(** The calls the provider was asked to place. *)
Definition callsPlaced (tr : list Event) : list CallParams :=
  flat_map (fun e => match e with
                     | CallsCreate p => [p]
                     | _ => []
                     end) tr.

(** The calls whose recordings the provider was asked to list. *)
Definition recordingsListed (tr : list Event) : list string :=
  flat_map (fun e => match e with
                     | RecordingsList c => [c]
                     | _ => []
                     end) tr.

(** The documents handed to [create]. *)
Definition created (tr : list Event) : list NewCall :=
  flat_map (fun e => match e with
                     | DbCreate d => [d]
                     | _ => []
                     end) tr.

(** The parameters [makeCall] builds for a number. *)
Definition callParams (config : Config) (p : string) : CallParams :=
  {| cp_url := webhookUrl config ++ "/api/twilio/voice";
     cp_to := p;
     cp_from := twilioPhoneNumber config;
     cp_statusCallback := webhookUrl config ++ "/api/twilio/status";
     cp_statusCallbackEvent := ["initiated"; "ringing"; "answered"; "completed"];
     cp_statusCallbackMethod := "POST" |}.

(** A request to the provider is well formed for a call: a call or a
    message goes to a number that matches the pattern, a message carries the
    voicemail text, and recordings are listed for that call only. *)
Definition wellFormedFor (callSid : string) (e : Event) : Prop :=
  match e with
  | CallsCreate p => matchE164 (cp_to p) = true
  | MessagesCreate b t _ => matchE164 t = true /\ b = VOICEMAIL_MESSAGE
  | RecordingsList c => c = callSid
  | _ => True
  end.

(** A provider that rejects every request. *)
Definition rejectingClient : TwilioClient :=
  {| calls_create := fun _ => Rejected "Authenticate";
     messages_create := fun _ _ _ => Rejected "Authenticate";
     recordings_list := fun _ => Rejected "Authenticate" |}.

(** *** Paging *)

(** The number a query parameter stands for: the default [d] when the
    parameter is absent, does not read as a number, or reads as 0; the
    number read in every other case. *)
Definition standsFor (x : option string) (d v : Z) : Prop :=
  ((parseInt x = NaN \/ parseInt x = Num 0) /\ v = d)
  \/ (parseInt x = Num v /\ v <> 0%Z).

(** A collection of 25 entries that answers the query for skip 20 and
    limit 10 only, and one that rejects a negative skip. *)
Definition thirdPageOnly : CallLogReads unit :=
  {| find := fun _ => QueryObject (fun skip limit =>
                        if ((skip =? 20) && (limit =? 10))%Z then Resolved []
                        else Rejected "another page");
     countDocuments := fun _ => Resolved 25%Z |}.

Definition noNegativeSkip : CallLogReads unit :=
  {| find := fun _ => QueryObject (fun skip limit =>
                        if (skip <? 0)%Z then Rejected "Skip value must be non-negative"
                        else Resolved []);
     countDocuments := fun _ => Resolved 25%Z |}.

(** ** Facts about the string primitives *)

Section StringFacts.

Lemma startsWith_spec (s p : string) :
  startsWith s p = true <-> exists b, s = p ++ b.
Proof.
  revert s; induction p as [|a p IH]; intros s; simpl.
  - split; [intros _; exists s; reflexivity | reflexivity].
  - destruct s as [|b s]; simpl.
    + split; [discriminate | intros [x Hx]; discriminate].
    + rewrite andb_true_iff, Ascii.eqb_eq, IH. split.
      * intros [-> [x ->]]. exists x. reflexivity.
      * intros [x Hx]. injection Hx as -> ->. split; [reflexivity | exists x; reflexivity].
Qed.

(** [includes] is the substring relation. *)
Lemma includes_spec (s k : string) :
  includes s k = true <-> exists a b, s = a ++ k ++ b.
Proof.
  induction s as [|c s IH]; simpl.
  - rewrite orb_false_r, startsWith_spec. split.
    + intros [b Hb]. exists EmptyString, b. exact Hb.
    + intros [a [b Hab]]. destruct a as [|x a]; [exists b; exact Hab | discriminate].
  - rewrite orb_true_iff, startsWith_spec, IH. split.
    + intros [[b Hb] | [a [b Hab]]].
      * exists EmptyString, b. exact Hb.
      * exists (String c a), b. simpl. now rewrite Hab.
    + intros [a [b Hab]]. destruct a as [|x a]; simpl in Hab.
      * left. exists b. exact Hab.
      * right. injection Hab as _ Hs. exists a, b. exact Hs.
Qed.

Lemma toLowerCase_app (s t : string) :
  toLowerCase (s ++ t) = toLowerCase s ++ toLowerCase t.
Proof. induction s as [|c s IH]; simpl; [reflexivity | now rewrite IH]. Qed.

Lemma toLowerCase_split (t x y : string) :
  toLowerCase t = x ++ y ->
  exists t1 t2, t = t1 ++ t2 /\ toLowerCase t1 = x /\ toLowerCase t2 = y.
Proof.
  revert t; induction x as [|c x IH]; intros t Ht; simpl in Ht.
  - exists EmptyString, t. repeat split; assumption.
  - destruct t as [|d t]; simpl in Ht; [discriminate |].
    injection Ht as Hc Ht. destruct (IH _ Ht) as (t1 & t2 & -> & <- & <-).
    exists (String d t1), t2. simpl. now rewrite Hc.
Qed.

(** Matching the lower-cased transcript against a lower-case keyword is
    matching the transcript without regard to case. *)
Lemma includes_toLowerCase (t k : string) :
  toLowerCase k = k ->
  includes (toLowerCase t) k = true <-> occursIgnoringCase k t.
Proof.
  intros Hk. rewrite includes_spec. unfold occursIgnoringCase. rewrite Hk. split.
  - intros (a' & b' & Hab).
    destruct (toLowerCase_split _ _ _ Hab) as (a & r & -> & _ & Hr).
    destruct (toLowerCase_split _ _ _ Hr) as (u & b & -> & Hu & _).
    exists a, u, b. split; [reflexivity | exact Hu].
  - intros (a & u & b & -> & Hu).
    exists (toLowerCase a), (toLowerCase b).
    now rewrite !toLowerCase_app, Hu.
Qed.

Lemma someIncluded_matches (keywords : list string) (t : string) :
  Forall (fun k => toLowerCase k = k) keywords ->
  someIncluded keywords (toLowerCase t) = true <-> matches keywords t.
Proof.
  intros Hlow. unfold someIncluded, matches. rewrite existsb_exists.
  rewrite Forall_forall in Hlow.
  split; intros (k & Hin & Hk); exists k; (split; [exact Hin |]).
  - apply includes_toLowerCase; [apply Hlow, list_elem_of_In, Hin | exact Hk].
  - apply includes_toLowerCase; [apply Hlow, list_elem_of_In, Hin | exact Hk].
Qed.

Lemma keywords_lower :
  Forall (fun k => toLowerCase k = k) positiveKeywords
  /\ Forall (fun k => toLowerCase k = k) negativeKeywords
  /\ Forall (fun k => toLowerCase k = k) medicationKeywords.
Proof. repeat split; repeat constructor. Qed.

(** [trim] leaves nothing exactly when every character is white space. *)
Lemma trimEnd_empty (s : string) :
  trimEnd s = EmptyString <-> allChars isWhiteSpace s = true.
Proof.
  induction s as [|c s IH]; simpl; [tauto |].
  destruct (trimEnd s) eqn:E.
  - destruct (isWhiteSpace c); simpl.
    + rewrite <- IH. tauto.
    + split; discriminate.
  - split; [discriminate |]. rewrite andb_true_iff. intros [_ Hs].
    apply IH in Hs. discriminate.
Qed.

Lemma trim_empty (s : string) :
  trim s = EmptyString <-> allChars isWhiteSpace s = true.
Proof.
  unfold trim. rewrite trimEnd_empty.
  induction s as [|c s IH]; simpl; [tauto |].
  destruct (isWhiteSpace c) eqn:E; simpl.
  - exact IH.
  - rewrite E. simpl. split; discriminate.
Qed.

Lemma isEmpty_true (s : string) : isEmpty s = true <-> s = EmptyString.
Proof. destruct s; simpl; split; congruence. Qed.

End StringFacts.

Lemma noSpeech_spec (x : option string) :
  noSpeech x = true <->
  x = None \/ exists s, x = Some s /\ allChars isWhiteSpace s = true.
Proof.
  unfold noSpeech. rewrite orb_true_iff, !isEmpty_true, trim_empty.
  destruct x as [s|]; simpl.
  - destruct s as [|c s]; simpl.
    + split; [intros _; right; exists EmptyString; auto | auto].
    + split.
      * intros [Hd | Hw]; [discriminate | right; eexists; eauto].
      * intros [Hn | (s' & Hs & Hw)]; [discriminate |]. injection Hs as <-. right. exact Hw.
  - split; auto.
Qed.

(** ** The retry count through the URL *)

Section NumeralFacts.

Lemma readDigits_uint (d : Decimal.uint) (acc : option Z) :
  d <> Decimal.Nil \/ acc <> None ->
  readDigits (NilEmpty.string_of_uint d) acc = Some (uintValue d (default 0%Z acc)).
Proof.
  revert acc. induction d; intros acc Hne;
    try (cbn [NilEmpty.string_of_uint readDigits uintValue];
         change (isDigit _) with true; cbv iota;
         rewrite IHd by (right; discriminate); reflexivity).
  destruct Hne as [Hne | Hne]; [congruence |].
  destruct acc; [reflexivity | congruence].
Qed.

Lemma uintValue_pos (d : Decimal.uint) (acc : positive) :
  uintValue d (Z.pos acc) = Z.pos (Pos.of_uint_acc d acc).
Proof.
  revert acc. induction d; intros acc; simpl; try reflexivity;
    match goal with
    | |- uintValue _ ?z = Z.pos (Pos.of_uint_acc _ ?p) =>
        replace z with (Z.pos p) by lia
    end; apply IHd.
Qed.

Lemma uintValue_zero (d : Decimal.uint) : uintValue d 0 = Z.of_N (Pos.of_uint d).
Proof.
  induction d; simpl; try reflexivity; try apply uintValue_pos. exact IHd.
Qed.

Lemma readDigits_positive (p : positive) :
  readDigits (NilEmpty.string_of_uint (Pos.to_uint p)) None = Some (Z.pos p).
Proof.
  rewrite readDigits_uint by (left; apply Unsigned.to_uint_nonnil).
  simpl. rewrite uintValue_zero, DecimalPos.Unsigned.of_to. reflexivity.
Qed.

(** A number printed into a URL is read back by [parseInt]. *)
Lemma parseInt10_numToString (z : Z) : parseInt10 (numToString (Num z)) = Num z.
Proof.
  destruct z as [|p|p]; [reflexivity | |];
    unfold numToString, Z.to_int, NilZero.string_of_int, NilZero.string_of_uint;
    pose proof (readDigits_positive p) as Hp;
    pose proof (Unsigned.to_uint_nonnil p) as Hnn.
  - destruct (Pos.to_uint p) eqn:E; try congruence;
      unfold parseInt10; cbn [NilEmpty.string_of_uint trimStart];
      change (isWhiteSpace _) with false; cbv iota;
      cbn [NilEmpty.string_of_uint] in Hp; rewrite Hp; reflexivity.
  - destruct (Pos.to_uint p) eqn:E; try congruence;
      unfold parseInt10; cbn [trimStart];
      change (isWhiteSpace "-") with false; cbv iota; rewrite Hp; reflexivity.
Qed.

Lemma numToString_nonempty (n : JSNum) : isEmpty (numToString n) = false.
Proof.
  destruct n as [|[|p|p]]; try reflexivity.
  unfold numToString, Z.to_int, NilZero.string_of_int, NilZero.string_of_uint.
  destruct (Pos.to_uint p); reflexivity.
Qed.

(** Every integer is the reading of some query parameter: the one that
    prints it. *)
Lemma retryCount_round_trip (z : Z) :
  parseInt10 (orDefault (Some (numToString (Num z))) "0") = Num z.
Proof.
  unfold orDefault. rewrite numToString_nonempty. apply parseInt10_numToString.
Qed.

End NumeralFacts.

(** ** The response classifier *)

Lemma positive_matches (t : string) :
  someIncluded positiveKeywords (toLowerCase t) = true <-> matches positiveKeywords t.
Proof. apply someIncluded_matches, keywords_lower. Qed.

Lemma negative_matches (t : string) :
  someIncluded negativeKeywords (toLowerCase t) = true <-> matches negativeKeywords t.
Proof. apply someIncluded_matches, keywords_lower. Qed.

Lemma medication_matches (t : string) :
  someIncluded medicationKeywords (toLowerCase t) = true <-> matches medicationKeywords t.
Proof. apply someIncluded_matches, keywords_lower. Qed.

Lemma analysis_cases (t : string) :
  analysis t =
    match someIncluded positiveKeywords (toLowerCase t),
          someIncluded negativeKeywords (toLowerCase t) with
    | false, true => (NoAdherence, NEGATIVE_RESPONSE_MESSAGE)
    | true, false => (Full, POSITIVE_RESPONSE_MESSAGE)
    | true, true => (Partial, PARTIAL_RESPONSE_MESSAGE)
    | false, false => (Unclear, UNCLEAR_RESPONSE_MESSAGE)
    end.
Proof.
  unfold analysis.
  destruct (someIncluded positiveKeywords _), (someIncluded negativeKeywords _),
    (someIncluded medicationKeywords _); reflexivity.
Qed.

Lemma analysis_template (t : string) :
  analysis t = (classify t, replyTemplate (classify t)).
Proof.
  unfold classify. rewrite analysis_cases.
  destruct (someIncluded positiveKeywords _), (someIncluded negativeKeywords _);
    reflexivity.
Qed.

(** C1. For every transcript the classification step yields exactly one
    verdict among Full, Partial, None and Unclear, never Unknown, and the
    verdict follows the decision table, where a keyword set matches when one
    of its keywords occurs in the transcript as a substring, ignoring case:
    None exactly when a negative and no positive keyword matches, Full
    exactly when a positive and no negative keyword matches, Partial exactly
    when both match, Unclear exactly when neither matches, with or without a
    medication-context keyword. *)
Theorem C1_classify_decision_table (t : string) :
  (classify t = Full \/ classify t = Partial
   \/ classify t = NoAdherence \/ classify t = Unclear)
  /\ classify t <> Unknown
  /\ (classify t = NoAdherence <->
        matches negativeKeywords t /\ ~ matches positiveKeywords t)
  /\ (classify t = Full <->
        matches positiveKeywords t /\ ~ matches negativeKeywords t)
  /\ (classify t = Partial <->
        matches positiveKeywords t /\ matches negativeKeywords t)
  /\ (classify t = Unclear <->
        ~ matches positiveKeywords t /\ ~ matches negativeKeywords t)
  /\ (~ matches positiveKeywords t /\ ~ matches negativeKeywords t
      /\ ~ matches medicationKeywords t <-> 
      classify t = Unclear /\ ~ matches medicationKeywords t).
Proof.
  pose proof (positive_matches t) as HP.
  pose proof (negative_matches t) as HN.
  unfold classify. rewrite analysis_cases.
  destruct (someIncluded positiveKeywords _), (someIncluded negativeKeywords _);
    simpl; repeat split; auto; try discriminate; try tauto;
    try (intros; exfalso; intuition congruence); intuition congruence.
Qed.

(** A transcript on which the table gives Full. *)
Lemma C1_classify_witness : classify "Yes I took my pills" = Full.
Proof.
  apply (C1_classify_decision_table "Yes I took my pills"). split.
  - exists "yes". split; [simpl; auto |].
    exists EmptyString, "Yes", " I took my pills". split; reflexivity.
  - rewrite <- negative_matches. vm_compute. discriminate.
Defined.

(** ** Running the handlers *)

(** Unfolds a run down to the operations of the monad. *)
Ltac unfold_handler :=
  unfold run, result, actions, final,
    initiateCall, handleVoiceCall, handleGather, handleStatusCallback,
    smsFallback, sendSms, makeCall, getRecordingUrl, failAt, failAgainAt,
    CallLog_create, CallLog_findOneAndUpdate, logger,
    await_store, await_client, emit, tryCatch, throw,
    mbind, M_bind, bind, mret, M_ret, ret;
  simpl.

(** ** Gather results *)

Section GatherFacts.

Context {St : Type} `{CallLog St}.
Variable config : Config.

Lemma handleGather_noSpeech (fault : option ReplyStep) (again : option FallbackStep)
    (req : GatherRequest) (st : St) :
  noSpeech (SpeechResult req) = true ->
  run (handleGather config fault again req) st =
    (Ok (sendXml [Redirect
           (voiceRedirect config (succ (parseInt10 (orDefault (gather_retryCount req) "0"))))]),
     {| store := st;
        trace := [Log INFO "no_speech_detected" None
                    (Some (succ (parseInt10 (orDefault (gather_retryCount req) "0"))))] |}).
Proof.
  unfold noSpeech. intros Hno. unfold_handler. rewrite Hno. reflexivity.
Qed.

Lemma handleGather_speech (fault : option ReplyStep) (again : option FallbackStep)
    (req : GatherRequest) (st : St) :
  noSpeech (SpeechResult req) = false ->
  run (handleGather config fault again req) st =
    let t := orDefault (SpeechResult req) EmptyString in
    let o := findOneAndUpdate (gather_CallSid req) (answeredUpdate req) st in
    (Ok (replyResponse fault again (classify t)),
     {| store := snd o;
        trace := [Log INFO "response_received" None None;
                  DbUpdate (gather_CallSid req) (answeredUpdate req)]
                 ++ warnIfRejected (fst o) ++ replyLog fault (classify t) |}).
Proof.
  unfold noSpeech. intros Hno. unfold_handler. rewrite Hno. simpl.
  rewrite analysis_template. fold (answeredUpdate req).
  destruct (findOneAndUpdate (gather_CallSid req) (answeredUpdate req) st) as [[[]|m] st'];
    destruct fault as [[]|]; try reflexivity; destruct again as [[]|]; reflexivity.
Qed.

End GatherFacts.


(** C5. A gather result whose transcript is absent, empty or white space
    only does not reach the classification step: no verdict is computed, no
    reply is spoken, the store is not touched, and the response is a single
    redirect to the voice entry whose retryCount is the incoming query
    parameter plus one (for a parameter that reads as an integer in the
    exactly represented range). *)
Theorem C5_no_speech_redirects {St : Type} `{CallLog St}
    (config : Config) (fault : option ReplyStep) (again : option FallbackStep)
    (req : GatherRequest) (st : St) (n : Z) :
  (SpeechResult req = None
   \/ exists s, SpeechResult req = Some s /\ allChars isWhiteSpace s = true) ->
  parseInt10 (orDefault (gather_retryCount req) "0") = Num n ->
  (Z.abs n < 2 ^ 53)%Z ->
  let r := run (handleGather config fault again req) st in
  result r = Ok (sendXml [Redirect (webhookUrl config ++ "/api/twilio/voice?retryCount="
                                    ++ numToString (Num (n + 1)))])
  /\ verdicts (actions r) = []
  /\ (forall resp, result r = Ok resp -> said resp = [])
  /\ actions r = [Log INFO "no_speech_detected" None (Some (Num (n + 1)))]
  /\ final r = st.
Proof.
  intros Hno Hn _ r. apply noSpeech_spec in Hno.
  subst r. rewrite (handleGather_noSpeech config fault again req st Hno), Hn.
  unfold result, actions, final, voiceRedirect; simpl.
  repeat split. intros resp [= <-]. reflexivity.
Qed.

(** An empty transcript with [retryCount=1] is sent back with
    [retryCount=2]. *)
Lemma C5_no_speech_witness :
  result (run (handleGather (St := unit) defaultConfig None None
                 {| SpeechResult := Some "  "; gather_CallSid := "CA1";
                    gather_retryCount := Some "1" |}) tt)
  = Ok (sendXml [Redirect "http://localhost:3000/api/twilio/voice?retryCount=2"]).
Proof.
  refine (proj1 (C5_no_speech_redirects defaultConfig None None _ tt 1 _ _ _)).
  - right. exists "  ". split; reflexivity.
  - reflexivity.
  - reflexivity.
Defined.




(** ** The gather action and the retry counter *)

Lemma includes_char_app (a b : string) (c : ascii) :
  includes (a ++ b) (String c EmptyString)
  = includes a (String c EmptyString) || includes b (String c EmptyString).
Proof.
  induction a as [|x a IH]; simpl.
  - reflexivity.
  - rewrite IH. destruct (Ascii.eqb x c); simpl; [reflexivity |].
    reflexivity.
Qed.

(** C10. The gather verb that [generateTwiml] produces has the action URL
    [webhookUrl/api/twilio/gather] whatever the next retry count is: the URL
    has no query string when the base URL has none.  A gather result that
    arrives without a retryCount parameter and without speech is therefore
    redirected to the voice entry with [retryCount=1], whatever happened in
    earlier legs. *)
Theorem C10_gather_action_has_no_retry_count {St : Type} `{CallLog St}
    (config : Config) (message : string) (nextRetryCount : JSNum)
    (fault : option ReplyStep) (again : option FallbackStep)
    (req : GatherRequest) (st : St) :
  gatherActions (generateTwiml config message nextRetryCount)
  = [webhookUrl config ++ "/api/twilio/gather"]
  /\ (includes (webhookUrl config) "?" = false ->
      Forall (fun action => includes action "?" = false)
        (gatherActions (generateTwiml config message nextRetryCount)))
  /\ (gather_retryCount req = None ->
      noSpeech (SpeechResult req) = true ->
      result (run (handleGather config fault again req) st)
      = Ok (sendXml [Redirect (webhookUrl config ++ "/api/twilio/voice?retryCount=1")])).
Proof.
  split; [reflexivity |]. split.
  - intros Hq. simpl. constructor; [| constructor].
    rewrite includes_char_app, Hq. reflexivity.
  - intros Hq Hno. rewrite (handleGather_noSpeech config fault again req st Hno), Hq.
    reflexivity.
Qed.

(** The prompt of the second leg and an empty gather result that follows
    it. *)
Lemma C10_gather_action_witness :
  Forall (fun action => includes action "?" = false)
    (gatherActions (generateTwiml defaultConfig REASK_MESSAGE (Num 2)))
  /\ result (run (handleGather (St := unit) defaultConfig None None
                    {| SpeechResult := None; gather_CallSid := "CA1";
                       gather_retryCount := None |}) tt)
     = Ok (sendXml [Redirect "http://localhost:3000/api/twilio/voice?retryCount=1"]).
Proof.
  pose proof (C10_gather_action_has_no_retry_count (St := unit) defaultConfig
                REASK_MESSAGE (Num 2) None None
                {| SpeechResult := None; gather_CallSid := "CA1";
                   gather_retryCount := None |} tt) as (_ & Hq & Hr).
  split.
  - apply Hq. reflexivity.
  - apply Hr; reflexivity.
Defined.

(** ** The voice entry *)

(** C4. The voice entry follows the retry policy on the retryCount it is
    given: 0 gives the full reminder as a gather prompt with a redirect
    carrying retryCount 1; 1 gives the short re-ask with a redirect carrying
    retryCount 2; every retryCount of 2 or more gives the same response, the
    closing message followed by a hang-up, with no gather and no redirect;
    the test for termination comes first, so no prompt is selected there. *)
Theorem C4_voice_retry_policy {St : Type}
    (config : Config) (req : VoiceRequest) (st : St) (n : Z) :
  parseInt10 (orDefault (voice_retryCount req) "0") = Num n ->
  let r := run (handleVoiceCall config req) st in
  (n = 0%Z ->
   result r = Ok (sendXml
     [Gather "speech" (webhookUrl config ++ "/api/twilio/gather") "auto" "en-US"
        MEDICATION_REMINDER_MESSAGE;
      Redirect (webhookUrl config ++ "/api/twilio/voice?retryCount=1")]))
  /\ (n = 1%Z ->
      result r = Ok (sendXml
        [Gather "speech" (webhookUrl config ++ "/api/twilio/gather") "auto" "en-US"
           REASK_MESSAGE;
         Redirect (webhookUrl config ++ "/api/twilio/voice?retryCount=2")]))
  /\ ((2 <= n)%Z ->
      result r = Ok (sendXml [Say CLOSING_MESSAGE; Hangup])
      /\ final r = st).
Proof.
  intros Hn r. subst r. unfold_handler. rewrite Hn. simpl.
  repeat split.
  - intros ->. reflexivity.
  - intros ->. reflexivity.
  - destruct (2 <=? n)%Z eqn:E; [reflexivity | lia].
  - destruct (2 <=? n)%Z eqn:E; [reflexivity | lia].
Qed.

(** The three legs of a call in which nothing is heard. *)
Lemma C4_voice_retry_witness :
  result (run (handleVoiceCall (St := unit) defaultConfig {| voice_retryCount := None |}) tt)
  = Ok (sendXml
      [Gather "speech" "http://localhost:3000/api/twilio/gather" "auto" "en-US"
         MEDICATION_REMINDER_MESSAGE;
       Redirect "http://localhost:3000/api/twilio/voice?retryCount=1"])
  /\ result (run (handleVoiceCall (St := unit) defaultConfig
                    {| voice_retryCount := Some "1" |}) tt)
     = Ok (sendXml
         [Gather "speech" "http://localhost:3000/api/twilio/gather" "auto" "en-US"
            REASK_MESSAGE;
          Redirect "http://localhost:3000/api/twilio/voice?retryCount=2"])
  /\ result (run (handleVoiceCall (St := unit) defaultConfig
                    {| voice_retryCount := Some "2" |}) tt)
     = Ok (sendXml [Say CLOSING_MESSAGE; Hangup]).
Proof.
  split; [| split].
  - refine (proj1 (C4_voice_retry_policy defaultConfig _ tt 0 _) _); reflexivity.
  - refine (proj1 (proj2 (C4_voice_retry_policy defaultConfig _ tt 1 _)) _); reflexivity.
  - refine (proj1 (proj2 (proj2 (C4_voice_retry_policy defaultConfig _ tt 2 _)) _)).
    + reflexivity.
    + discriminate.
Defined.

(** Whatever integer of 2 or more the redirect carried, the leg that reads
    it back closes the call. *)
Lemma handleVoiceCall_closes {St : Type} (config : Config) (st : St) (n : Z) :
  (2 <= n)%Z ->
  result (run (handleVoiceCall config
                 {| voice_retryCount := Some (numToString (Num n)) |}) st)
  = Ok (sendXml [Say CLOSING_MESSAGE; Hangup]).
Proof.
  intros Hn. unfold run, result, handleVoiceCall, tryCatch.
  cbn [voice_retryCount]. rewrite retryCount_round_trip.
  unfold geb. destruct (2 <=? n)%Z eqn:E; [reflexivity | lia].
Qed.

(** ** Independence from the outcome of store operations *)

Section Simulation.

Context {St1 St2 : Type}.

Lemma agree_ret {A} (a : A) : agree (St1 := St1) (St2 := St2) (ret a) (ret a).
Proof. intros env1 env2 Htr. simpl. auto. Qed.

Lemma agree_throw {A} (e : Exn) : agree (@throw St1 A e) (@throw St2 A e).
Proof. intros env1 env2 Htr. simpl. auto. Qed.

Lemma agree_bind {A B} (m1 : M St1 A) (m2 : M St2 A) (k1 : A -> M St1 B) (k2 : A -> M St2 B) :
  agree m1 m2 -> (forall a, agree (k1 a) (k2 a)) -> agree (bind m1 k1) (bind m2 k2).
Proof.
  intros Hm Hk env1 env2 Htr. unfold bind.
  destruct (Hm env1 env2 Htr) as [Hr Ht].
  destruct (m1 env1) as [r1 e1], (m2 env2) as [r2 e2]. simpl in *. subst r2.
  destruct r1 as [a|e]; [apply Hk; exact Ht | auto].
Qed.

Lemma agree_tryCatch {A} (b1 : M St1 A) (b2 : M St2 A) (h1 : Exn -> M St1 A) (h2 : Exn -> M St2 A) :
  agree b1 b2 -> (forall e, agree (h1 e) (h2 e)) -> agree (tryCatch b1 h1) (tryCatch b2 h2).
Proof.
  intros Hb Hh env1 env2 Htr. unfold tryCatch.
  destruct (Hb env1 env2 Htr) as [Hr Ht].
  destruct (b1 env1) as [r1 e1], (b2 env2) as [r2 e2]. simpl in *. subst r2.
  destruct r1 as [a|e]; [auto | apply Hh; exact Ht].
Qed.

Lemma issued_snoc (tr : list Event) (e : Event) :
  issued (tr ++ [e]) = (issued tr ++ if steady e then [e] else [])%list.
Proof. unfold issued. rewrite List.filter_app. simpl. destruct (steady e); reflexivity. Qed.

Lemma agree_emit (e : Event) : agree (St1 := St1) (St2 := St2) (emit e) (emit e).
Proof.
  intros env1 env2 Htr. unfold emit. simpl. split; [reflexivity |].
  rewrite !issued_snoc, Htr. reflexivity.
Qed.

Lemma agree_await_client {A} (e : Event) (o : Outcome A) :
  agree (St1 := St1) (St2 := St2) (await_client e o) (await_client e o).
Proof.
  intros env1 env2 Htr. unfold await_client.
  destruct o; simpl; (split; [reflexivity |]); rewrite !issued_snoc, Htr; reflexivity.
Qed.

(** A store operation whose rejection is caught and logged as a warning. *)
Lemma agree_store_warned (e : Event) (op1 : St1 -> Outcome unit * St1)
    (op2 : St2 -> Outcome unit * St2) (event : string)
    (a : option AdherenceStatus) (n : option JSNum) :
  agree (tryCatch (await_store e op1) (fun _ => emit (Log WARN event a n)))
        (tryCatch (await_store e op2) (fun _ => emit (Log WARN event a n))).
Proof.
  intros env1 env2 Htr. unfold tryCatch, await_store, emit.
  destruct (op1 (store env1)) as [[[]|m1] s1], (op2 (store env2)) as [[[]|m2] s2];
    simpl; (split; [reflexivity |]); rewrite ?issued_snoc, Htr; simpl;
    rewrite ?app_nil_r; reflexivity.
Qed.

(** A store operation whose rejection is caught and dropped. *)
Lemma agree_store_dropped (e : Event) (op1 : St1 -> Outcome unit * St1)
    (op2 : St2 -> Outcome unit * St2) :
  agree (tryCatch (await_store e op1) (fun _ => ret tt))
        (tryCatch (await_store e op2) (fun _ => ret tt)).
Proof.
  intros env1 env2 Htr. unfold tryCatch, await_store, ret.
  destruct (op1 (store env1)) as [[[]|m1] s1], (op2 (store env2)) as [[[]|m2] s2];
    simpl; (split; [reflexivity |]); rewrite ?issued_snoc, Htr; reflexivity.
Qed.

End Simulation.

Ltac agree_step :=
  match goal with
  | |- agree (if ?c then _ else _) _ => destruct c
  | |- agree (match ?x with Some _ => _ | None => _ end) _ => destruct x
  | |- agree (let '(_, _) := ?p in _) _ => destruct p
  | |- agree (tryCatch (await_store _ _) (fun _ => emit _)) _ => apply agree_store_warned
  | |- agree (tryCatch (await_store _ _) (fun _ => ret _)) _ => apply agree_store_dropped
  | |- agree (tryCatch _ _) _ => apply agree_tryCatch
  | |- agree (bind _ _) _ => apply agree_bind
  | |- agree (ret _) _ => apply agree_ret
  | |- agree (throw _) _ => apply agree_throw
  | |- agree (emit _) _ => apply agree_emit
  | |- agree (await_client _ _) _ => apply agree_await_client
  | |- forall _, _ => intro
  end.

Ltac agree_handler :=
  unfold initiateCall, handleVoiceCall, handleGather, handleStatusCallback,
    smsFallback, sendSms, makeCall, getRecordingUrl, failAt, failAgainAt,
    CallLog_create, CallLog_findOneAndUpdate, logger,
    mbind, M_bind, mret, M_ret;
  repeat agree_step.

Section HandlersAgree.

Context {St1 St2 : Type} {L1 : CallLog St1} {L2 : CallLog St2}.
Variable config : Config.
Variable client : TwilioClient.

Lemma initiateCall_agree (req : InitiateRequest) :
  agree (initiateCall (St := St1) config client req)
        (initiateCall (St := St2) config client req).
Proof. agree_handler. Qed.

Lemma handleVoiceCall_agree (req : VoiceRequest) :
  agree (handleVoiceCall (St := St1) config req)
        (handleVoiceCall (St := St2) config req).
Proof. agree_handler. Qed.

Lemma handleGather_agree (fault : option ReplyStep) (again : option FallbackStep)
    (req : GatherRequest) :
  agree (handleGather (St := St1) config fault again req)
        (handleGather (St := St2) config fault again req).
Proof. agree_handler. Qed.

Lemma handleStatusCallback_agree (req : StatusRequest) :
  agree (handleStatusCallback (St := St1) config client req)
        (handleStatusCallback (St := St2) config client req).
Proof. agree_handler. Qed.

End HandlersAgree.

Lemma agree_run {St1 St2 A} (m1 : M St1 A) (m2 : M St2 A) (s1 : St1) (s2 : St2) :
  agree m1 m2 ->
  result (run m1 s1) = result (run m2 s2)
  /\ issued (actions (run m1 s1)) = issued (actions (run m2 s2)).
Proof. intros Hm. apply Hm. reflexivity. Qed.

(** A reading of the trace that ignores the warnings sees the same in the
    issued actions. *)
Lemma flat_map_issued {B} (f : Event -> list B) (tr : list Event) :
  (forall e, steady e = false -> f e = []) ->
  flat_map f (issued tr) = flat_map f tr.
Proof.
  intros Hf. induction tr as [|e tr IH]; simpl; [reflexivity |].
  destruct (steady e) eqn:E; simpl.
  - now rewrite IH.
  - now rewrite IH, (Hf e E).
Qed.

Ltac warn_free :=
  let e := fresh "e" in
  intros e; destruct e as [| | | | | |[] ? ? ?]; simpl; congruence.

Lemma providerActions_issued (tr : list Event) :
  providerActions (issued tr) = providerActions tr.
Proof. apply flat_map_issued. warn_free. Qed.

Lemma dispatched_issued (tr : list Event) : dispatched (issued tr) = dispatched tr.
Proof. apply flat_map_issued. warn_free. Qed.

Lemma messagesSent_issued (tr : list Event) : messagesSent (issued tr) = messagesSent tr.
Proof. apply flat_map_issued. warn_free. Qed.

Lemma statusWrites_issued (tr : list Event) : statusWrites (issued tr) = statusWrites tr.
Proof. apply flat_map_issued. warn_free. Qed.

Lemma adherenceWrites_issued (tr : list Event) :
  adherenceWrites (issued tr) = adherenceWrites tr.
Proof. apply flat_map_issued. warn_free. Qed.

(** C9. For the four handlers, two runs on the same request and the same
    provider, over any two Call Record stores in any two states (so with any
    outcomes of the store operations), return the same response and issue
    the same actions towards the provider and the store: the traces differ
    at most in the warnings that report a store failure. *)
Theorem C9_response_independent_of_store {St1 St2 : Type}
    (L1 : CallLog St1) (L2 : CallLog St2)
    (config : Config) (client : TwilioClient) (s1 : St1) (s2 : St2) :
  (forall req,
     let r1 := run (initiateCall config client req) s1 in
     let r2 := run (initiateCall config client req) s2 in
     result r1 = result r2
     /\ providerActions (actions r1) = providerActions (actions r2)
     /\ issued (actions r1) = issued (actions r2))
  /\ (forall req,
        let r1 := run (handleVoiceCall config req) s1 in
        let r2 := run (handleVoiceCall config req) s2 in
        result r1 = result r2
        /\ providerActions (actions r1) = providerActions (actions r2)
        /\ issued (actions r1) = issued (actions r2))
  /\ (forall fault again req,
        let r1 := run (handleGather config fault again req) s1 in
        let r2 := run (handleGather config fault again req) s2 in
        result r1 = result r2
        /\ providerActions (actions r1) = providerActions (actions r2)
        /\ issued (actions r1) = issued (actions r2))
  /\ (forall req,
        let r1 := run (handleStatusCallback config client req) s1 in
        let r2 := run (handleStatusCallback config client req) s2 in
        result r1 = result r2
        /\ providerActions (actions r1) = providerActions (actions r2)
        /\ issued (actions r1) = issued (actions r2)).
Proof.
  assert (Hrun : forall A (m1 : M St1 A) (m2 : M St2 A), agree m1 m2 ->
            result (run m1 s1) = result (run m2 s2)
            /\ providerActions (actions (run m1 s1)) = providerActions (actions (run m2 s2))
            /\ issued (actions (run m1 s1)) = issued (actions (run m2 s2))).
  { intros A m1 m2 Hm. destruct (agree_run m1 m2 s1 s2 Hm) as [Hr Hi].
    repeat split; [exact Hr | | exact Hi].
    rewrite <- (providerActions_issued (actions (run m1 s1))), Hi.
    apply providerActions_issued. }
  repeat split; intros; apply Hrun.
  - apply initiateCall_agree.
  - apply initiateCall_agree.
  - apply initiateCall_agree.
  - apply handleVoiceCall_agree.
  - apply handleVoiceCall_agree.
  - apply handleVoiceCall_agree.
  - apply handleGather_agree.
  - apply handleGather_agree.
  - apply handleGather_agree.
  - apply handleStatusCallback_agree.
  - apply handleStatusCallback_agree.
  - apply handleStatusCallback_agree.
Qed.

(** ** Status callbacks *)

Section StatusFacts.

Variable config : Config.
Variable client : TwilioClient.

Lemma fallbackDue_spec (req : StatusRequest) :
  fallbackDue req = true <-> fallbackCondition req.
Proof.
  unfold fallbackDue, fallbackCondition, inList, UNANSWERED. simpl.
  rewrite !orb_false_r.
  destruct (String.eqb_spec (CallStatus req) "completed") as [Hc|Hc].
  - rewrite Hc. simpl. rewrite orb_false_r, orb_true_iff, negb_true_iff, bool_decide_eq_false.
    split.
    + intros [Hh | Hd]; right; (split; [reflexivity |]); [left; exact Hh |].
      right. destruct (callDuration req) as [|d]; simpl in Hd; [discriminate |].
      exists d. split; [reflexivity | lia].
    + intros [Hin | [_ [Hh | (d & Hd & Hlt)]]].
      * exfalso. intuition discriminate.
      * left. exact Hh.
      * right. rewrite Hd. simpl. lia.
  - simpl. rewrite andb_true_r, ?orb_false_r.
    rewrite !orb_true_iff, !String.eqb_eq. split.
    + intros Hin. left. intuition auto.
    + intros [Hin | [Hcc _]]; [| contradiction]. intuition auto.
Qed.

Lemma voicemail_message_ok :
  isEmpty VOICEMAIL_MESSAGE || isEmpty (trim VOICEMAIL_MESSAGE) = false.
Proof. reflexivity. Qed.

Lemma handleStatusCallback_mock (req : StatusRequest) :
  run (handleStatusCallback (St := unit) config client req) tt
  = (Ok {| statusCode := 200; body := Text "Status received" |},
     {| store := tt; trace := statusTrace config client req |}).
Proof.
  unfold statusTrace, fallbackDue, recordingTrace, fallbackTrace, firstRecording,
    smsAccepted, callDuration.
  unfold run, handleStatusCallback, smsFallback, sendSms, getRecordingUrl,
    CallLog_findOneAndUpdate, logger, await_store, await_client, emit, tryCatch, throw,
    mbind, M_bind, bind, mret, M_ret, ret.
  rewrite voicemail_message_ok.
  fold (statusUpdate (CallStatus req)) (statusUpdate "SMS Sent").
  cbn [findOneAndUpdate mockCallLog store trace app].
  destruct (inList (CallStatus req) UNANSWERED);
    destruct (String.eqb (CallStatus req) "completed");
    destruct (bool_decide (AnsweredBy req = Some "human"));
    destruct (ltb (parseInt10 (orDefault (CallDuration req) "0")) 5);
    cbn [andb orb negb store trace app];
    destruct (falsy (To req) || negb (matchE164 (the (To req))));
    cbn [andb orb negb store trace app];
    try destruct (messages_create client VOICEMAIL_MESSAGE (the (To req))
                    (twilioPhoneNumber config)) as [[]|?];
    cbn [andb orb negb store trace app];
    try (destruct (recordings_list client (CallSid req)) as [[|url ?]|?];
         cbn [andb orb negb store trace app];
         try destruct (isEmpty url));
    reflexivity.
Qed.

End StatusFacts.

Section StatusOnAnyStore.

Context {St : Type} `{CallLog St}.
Variable config : Config.
Variable client : TwilioClient.

Lemma statusTrace_steady (req : StatusRequest) :
  issued (statusTrace config client req) = statusTrace config client req.
Proof.
  unfold statusTrace, fallbackTrace, recordingTrace, issued.
  destruct (fallbackDue req), (String.eqb (CallStatus req) "completed"),
    (falsy (To req) || negb (matchE164 (the (To req)))),
    (smsAccepted config client (To req)),
    (firstRecording client (CallSid req)); reflexivity.
Qed.

(** On every store the status handler answers 200 and issues
    [statusTrace]. *)
Lemma handleStatusCallback_issued (req : StatusRequest) (st : St) :
  let r := run (handleStatusCallback config client req) st in
  result r = Ok {| statusCode := 200; body := Text "Status received" |}
  /\ issued (actions r) = statusTrace config client req.
Proof.
  intros r. subst r.
  destruct (agree_run _ _ st tt
              (handleStatusCallback_agree (St1 := St) (St2 := unit) config client req))
    as [Hr Hi].
  rewrite Hr, Hi, handleStatusCallback_mock. unfold result, actions. simpl.
  split; [reflexivity | apply statusTrace_steady].
Qed.

Lemma dispatched_statusTrace (req : StatusRequest) :
  dispatched (statusTrace config client req)
  = if fallbackDue req then [(To req, VOICEMAIL_MESSAGE)] else [].
Proof.
  unfold statusTrace, fallbackTrace, recordingTrace.
  destruct (fallbackDue req), (String.eqb (CallStatus req) "completed"),
    (falsy (To req) || negb (matchE164 (the (To req)))),
    (smsAccepted config client (To req)),
    (firstRecording client (CallSid req)); reflexivity.
Qed.

Lemma statusWrites_statusTrace (req : StatusRequest) :
  statusWrites (statusTrace config client req)
  = (CallStatus req
     :: if fallbackDue req && smsAccepted config client (To req)
        then ["SMS Sent"] else [])%list.
Proof.
  unfold statusTrace, fallbackTrace, recordingTrace.
  destruct (fallbackDue req), (String.eqb (CallStatus req) "completed"),
    (falsy (To req) || negb (matchE164 (the (To req)))) eqn:Hto,
    (smsAccepted config client (To req)) eqn:Hsms,
    (firstRecording client (CallSid req)); try reflexivity;
    unfold smsAccepted in Hsms; rewrite Hto in Hsms; discriminate.
Qed.

Lemma messagesSent_statusTrace (req : StatusRequest) :
  messagesSent (statusTrace config client req)
  = if fallbackDue req && negb (falsy (To req) || negb (matchE164 (the (To req))))
    then [(the (To req), VOICEMAIL_MESSAGE)] else [].
Proof.
  unfold statusTrace, fallbackTrace, recordingTrace.
  destruct (fallbackDue req), (String.eqb (CallStatus req) "completed"),
    (falsy (To req) || negb (matchE164 (the (To req)))),
    (smsAccepted config client (To req)),
    (firstRecording client (CallSid req)); reflexivity.
Qed.

Lemma dispatched_status (req : StatusRequest) (st : St) :
  dispatched (actions (run (handleStatusCallback config client req) st))
  = if fallbackDue req then [(To req, VOICEMAIL_MESSAGE)] else [].
Proof.
  rewrite <- dispatched_issued.
  rewrite (proj2 (handleStatusCallback_issued req st)).
  apply dispatched_statusTrace.
Qed.

Lemma statusWrites_status (req : StatusRequest) (st : St) :
  statusWrites (actions (run (handleStatusCallback config client req) st))
  = (CallStatus req
     :: if fallbackDue req && smsAccepted config client (To req)
        then ["SMS Sent"] else [])%list.
Proof.
  rewrite <- statusWrites_issued.
  rewrite (proj2 (handleStatusCallback_issued req st)).
  apply statusWrites_statusTrace.
Qed.

Lemma messagesSent_status (req : StatusRequest) (st : St) :
  messagesSent (actions (run (handleStatusCallback config client req) st))
  = if fallbackDue req && negb (falsy (To req) || negb (matchE164 (the (To req))))
    then [(the (To req), VOICEMAIL_MESSAGE)] else [].
Proof.
  rewrite <- messagesSent_issued.
  rewrite (proj2 (handleStatusCallback_issued req st)).
  apply messagesSent_statusTrace.
Qed.

End StatusOnAnyStore.

(** ** Status callbacks on the mongoose model *)

Lemma alter_twice {A} (f g : A -> A) (i : string) (m : gmap string A) :
  alter f i (alter g i m) = alter (fun x => f (g x)) i m.
Proof.
  apply map_eq. intros j. destruct (decide (i = j)) as [->|Hne].
  - rewrite !lookup_alter_eq. destruct (m !! j); reflexivity.
  - rewrite !lookup_alter_ne by exact Hne. reflexivity.
Qed.

Section StatusOnMongo.

Variable config : Config.
Variable client : TwilioClient.

Lemma handleStatusCallback_mongo (req : StatusRequest) (db : Mongo) :
  final (run (handleStatusCallback config client req) db)
  = if connected db
    then {| docs := alter (statusEffect config client req) (CallSid req) (docs db);
            connected := true |}
    else db.
Proof.
  destruct db as [d c].
  unfold statusEffect, fallbackDue, firstRecording, smsAccepted, callDuration.
  unfold final, run, handleStatusCallback, smsFallback, sendSms, getRecordingUrl,
    CallLog_findOneAndUpdate, logger, await_store, await_client, emit, tryCatch, throw,
    mbind, M_bind, bind, mret, M_ret, ret.
  rewrite voicemail_message_ok.
  fold (statusUpdate (CallStatus req)) (statusUpdate "SMS Sent").
  cbn [findOneAndUpdate mongoCallLog store trace app snd].
  unfold mongoFindOneAndUpdate.
  destruct c; cbn [negb connected docs store trace app snd];
  destruct (inList (CallStatus req) UNANSWERED);
    destruct (String.eqb (CallStatus req) "completed");
    destruct (bool_decide (AnsweredBy req = Some "human"));
    destruct (ltb (parseInt10 (orDefault (CallDuration req) "0")) 5);
    cbn [andb orb negb connected docs store trace app snd];
    destruct (falsy (To req) || negb (matchE164 (the (To req))));
    cbn [andb orb negb connected docs store trace app snd];
    try destruct (messages_create client VOICEMAIL_MESSAGE (the (To req))
                    (twilioPhoneNumber config)) as [[]|?];
    cbn [andb orb negb connected docs store trace app snd];
    try (destruct (recordings_list client (CallSid req)) as [[|url ?]|?];
         cbn [andb orb negb connected docs store trace app snd];
         try (fold (recordingUpdate url); destruct (isEmpty url)));
    cbn [andb orb negb connected docs store trace app snd];
    rewrite ?alter_twice; reflexivity.
Qed.

End StatusOnMongo.

Lemma status_statusEffect (config : Config) (client : TwilioClient)
    (req : StatusRequest) (d : CallDoc) :
  status (statusEffect config client req d)
  = if fallbackDue req && smsAccepted config client (To req)
    then "SMS Sent" else CallStatus req.
Proof.
  unfold statusEffect.
  destruct (fallbackDue req && smsAccepted config client (To req)),
    (String.eqb (CallStatus req) "completed"),
    (firstRecording client (CallSid req)); reflexivity.
Qed.

Lemma adherence_statusEffect (config : Config) (client : TwilioClient)
    (req : StatusRequest) (d : CallDoc) :
  adherenceStatus (statusEffect config client req d) = adherenceStatus d.
Proof.
  unfold statusEffect.
  destruct (fallbackDue req && smsAccepted config client (To req)),
    (String.eqb (CallStatus req) "completed"),
    (firstRecording client (CallSid req)); reflexivity.
Qed.

(** C2. A status callback enters the fallback dispatcher, once, with the
    destination number and the voicemail text, exactly when the status is
    no-answer, busy, failed or canceled, or the status is completed and
    AnsweredBy is not human or the duration reads below 5; otherwise it does
    not enter it.  In particular a completed event with AnsweredBy other
    than human dispatches exactly once whatever the duration, and when the
    provider accepts the message the last status written to the Call Record
    is SMS Sent (the status of the session in a connected collection that
    holds it); a completed event answered by a human with duration 10 does
    not dispatch and asks the provider for the recordings. *)
Theorem C2_status_fallback {St : Type} `{CallLog St}
    (config : Config) (client : TwilioClient) (req : StatusRequest) (st : St) :
  let r := run (handleStatusCallback config client req) st in
  (dispatches (actions r) = 1 <-> fallbackCondition req)
  /\ (dispatches (actions r) = 0 <-> ~ fallbackCondition req)
  /\ (fallbackCondition req -> dispatched (actions r) = [(To req, VOICEMAIL_MESSAGE)])
  /\ (CallStatus req = "completed" -> AnsweredBy req <> Some "human" ->
      dispatches (actions r) = 1
      /\ (smsAccepted config client (To req) = true ->
          messagesSent (actions r) = [(the (To req), VOICEMAIL_MESSAGE)]
          /\ last (statusWrites (actions r)) = Some "SMS Sent"
          /\ forall (db : Mongo) (doc : CallDoc),
               connected db = true ->
               docs db !! CallSid req = Some doc ->
               status <$> (docs (final (run (handleStatusCallback config client req) db))
                           !! CallSid req)
               = Some "SMS Sent"))
  /\ (CallStatus req = "completed" -> AnsweredBy req = Some "human" ->
      CallDuration req = Some "10" ->
      dispatches (actions r) = 0
      /\ In (RecordingsList (CallSid req)) (actions r)).
Proof.
  intros r. subst r.
  pose proof (fallbackDue_spec req) as Hspec.
  assert (Hd := dispatched_status config client req st).
  unfold dispatches.
  split; [| split; [| split; [| split]]].
  - rewrite Hd, <- Hspec. destruct (fallbackDue req); simpl; split; congruence.
  - rewrite Hd, <- Hspec. destruct (fallbackDue req); simpl; split; congruence.
  - intros Hc. apply Hspec in Hc. rewrite Hd, Hc. reflexivity.
  - intros Hc Hh.
    assert (Hdue : fallbackDue req = true).
    { apply Hspec. right. split; [exact Hc | left; exact Hh]. }
    split; [rewrite Hd, Hdue; reflexivity |].
    intros Hsms. split; [| split].
    + rewrite messagesSent_status, Hdue. unfold smsAccepted in Hsms.
      apply andb_true_iff in Hsms as [-> _]. reflexivity.
    + rewrite statusWrites_status, Hdue, Hsms. reflexivity.
    + intros db doc Hconn Hdoc.
      rewrite handleStatusCallback_mongo, Hconn. cbn [docs].
      rewrite lookup_alter_eq, Hdoc. simpl.
      rewrite status_statusEffect, Hdue, Hsms. reflexivity.
  - intros Hc Hh Hdur.
    assert (Hdue : fallbackDue req = false).
    { unfold fallbackDue, callDuration. rewrite Hc, Hh, Hdur. reflexivity. }
    split; [rewrite Hd, Hdue; reflexivity |].
    assert (Hin : In (RecordingsList (CallSid req))
                    (issued (actions (run (handleStatusCallback config client req) st)))).
    { rewrite (proj2 (handleStatusCallback_issued config client req st)).
      unfold statusTrace. rewrite Hdue, Hc. simpl. auto. }
    unfold issued in Hin. apply List.filter_In in Hin. tauto.
Qed.

(** The sample call: the voicemail event dispatches once and leaves the
    status SMS Sent; the event answered by a person does not dispatch. *)
Lemma C2_status_fallback_witness :
  dispatches (actions (run (handleStatusCallback defaultConfig acceptingClient voicemailEvent)
                         sampleDb)) = 1
  /\ status <$> (docs (final (run (handleStatusCallback defaultConfig acceptingClient
                                     voicemailEvent) sampleDb)) !! "CA1")
     = Some "SMS Sent"
  /\ dispatches (actions (run (handleStatusCallback defaultConfig acceptingClient humanEvent)
                            sampleDb)) = 0.
Proof.
  pose proof (C2_status_fallback defaultConfig acceptingClient voicemailEvent sampleDb)
    as (_ & _ & _ & Hvm & _).
  pose proof (C2_status_fallback defaultConfig acceptingClient humanEvent sampleDb)
    as (_ & _ & _ & _ & Hhuman).
  destruct (Hvm eq_refl ltac:(discriminate)) as [Hone Hsent].
  destruct (Hsent eq_refl) as (_ & _ & Hdoc).
  split; [exact Hone | split].
  - exact (Hdoc sampleDb _ eq_refl eq_refl).
  - exact (proj1 (Hhuman eq_refl eq_refl eq_refl)).
Defined.

(** ** The same status callback applied twice *)

Lemma statusEffect_idempotent (config : Config) (client : TwilioClient)
    (req : StatusRequest) (d : CallDoc) :
  statusEffect config client req (statusEffect config client req d)
  = statusEffect config client req d.
Proof.
  unfold statusEffect.
  destruct (fallbackDue req && smsAccepted config client (To req)),
    (String.eqb (CallStatus req) "completed"),
    (firstRecording client (CallSid req)); destruct d; reflexivity.
Qed.

(** C6, as stated, fails: the second application of the completed event of
    the sample call sends the fallback message again. *)
Lemma C6_second_application_counterexample :
  ~ secondApplicationSilent defaultConfig acceptingClient voicemailEvent sampleDb.
Proof.
  unfold secondApplicationSilent. intros Hsilent.
  destruct (Hsilent eq_refl) as [Hnone _].
  vm_compute in Hnone. discriminate Hnone.
Qed.

(** C6, amended. The status handler keeps no memory of a dispatch: a second
    application of the same event returns the same response and issues the
    same actions as the first, so when the first dispatched the fallback the
    second dispatches it again and writes SMS Sent again.  What the second
    application leaves unchanged is the Call Record: in the mongoose model
    the collection after the second application is the collection after the
    first. *)
Theorem C6_second_application_repeats {St : Type} `{CallLog St}
    (config : Config) (client : TwilioClient) (req : StatusRequest) (st : St) (db : Mongo) :
  let r1 := run (handleStatusCallback config client req) st in
  let r2 := run (handleStatusCallback config client req) (final r1) in
  let m1 := run (handleStatusCallback config client req) db in
  let m2 := run (handleStatusCallback config client req) (final m1) in
  result r2 = result r1
  /\ issued (actions r2) = issued (actions r1)
  /\ dispatched (actions r2) = dispatched (actions r1)
  /\ messagesSent (actions r2) = messagesSent (actions r1)
  /\ statusWrites (actions r2) = statusWrites (actions r1)
  /\ (fallbackCondition req -> dispatches (actions r2) = 1)
  /\ final m2 = final m1.
Proof.
  intros r1 r2 m1 m2. subst r1 r2 m1 m2.
  set (s1 := final (run (handleStatusCallback config client req) st)).
  destruct (handleStatusCallback_issued config client req st) as [Hr1 Hi1].
  destruct (handleStatusCallback_issued config client req s1) as [Hr2 Hi2].
  split; [congruence |]. split; [congruence |].
  split; [rewrite !dispatched_status; reflexivity |].
  split; [rewrite !messagesSent_status; reflexivity |].
  split; [rewrite !statusWrites_status; reflexivity |].
  split.
  - intros Hc. apply fallbackDue_spec in Hc. unfold dispatches.
    rewrite dispatched_status, Hc. reflexivity.
  - rewrite !handleStatusCallback_mongo.
    destruct (connected db) eqn:Hconn; cbn [connected docs]; [| rewrite Hconn; reflexivity].
    rewrite alter_twice. f_equal. apply alter_ext. intros x _.
    apply statusEffect_idempotent.
Qed.

(** The sample event applied twice: the message goes out a second time and
    the collection stays as the first application left it. *)
Lemma C6_second_application_witness :
  let r1 := run (handleStatusCallback defaultConfig acceptingClient voicemailEvent) sampleDb in
  let r2 := run (handleStatusCallback defaultConfig acceptingClient voicemailEvent) (final r1) in
  dispatches (actions r2) = 1 /\ final r2 = final r1.
Proof.
  pose proof (C6_second_application_repeats defaultConfig acceptingClient voicemailEvent
                sampleDb sampleDb) as (_ & _ & _ & _ & _ & Hagain & Hsame).
  split; [| exact Hsame].
  apply Hagain. right. split; [reflexivity | left; discriminate].
Defined.

(** ** What a gather result with speech persists *)

Section GatherPersistence.

Context {St : Type} `{CallLog St}.
Variable config : Config.

(** With speech, the handler writes Answered and the transcript, logs the
    verdict and speaks its template followed by a hang-up. *)
Lemma handleGather_speech_reply (req : GatherRequest) (st : St) :
  noSpeech (SpeechResult req) = false ->
  let t := orDefault (SpeechResult req) EmptyString in
  let r := run (handleGather config None None req) st in
  result r = Ok (sendXml [Say (replyTemplate (classify t)); Hangup])
  /\ verdicts (actions r) = [classify t]
  /\ statusWrites (actions r) = ["Answered"]
  /\ In (DbUpdate (gather_CallSid req) (answeredUpdate req)) (actions r).
Proof.
  intros Hsp t r. subst r. rewrite (handleGather_speech config None None req st Hsp).
  unfold result, actions. cbn [fst snd trace].
  destruct (findOneAndUpdate (gather_CallSid req) (answeredUpdate req) st) as [[[]|m] st'];
    simpl; repeat split; auto.
Qed.

(** No run of the gather handler writes the [adherenceStatus] field. *)
Lemma handleGather_writes_no_adherence
    (fault : option ReplyStep) (again : option FallbackStep) (req : GatherRequest) (st : St) :
  adherenceWrites (actions (run (handleGather config fault again req) st)) = [].
Proof.
  destruct (noSpeech (SpeechResult req)) eqn:Hsp.
  - rewrite (handleGather_noSpeech config fault again req st Hsp). reflexivity.
  - rewrite (handleGather_speech config fault again req st Hsp).
    unfold actions. cbn [fst snd trace].
    destruct (findOneAndUpdate (gather_CallSid req) (answeredUpdate req) st) as [[[]|m] st'];
      destruct fault as [[]|]; try reflexivity; destruct again as [[]|]; reflexivity.
Qed.

End GatherPersistence.

(** In the mongoose model the document of the call keeps the
    [adherenceStatus] it had. *)
Lemma handleGather_mongo_adherence (config : Config)
    (fault : option ReplyStep) (again : option FallbackStep)
    (req : GatherRequest) (db : Mongo) (k : string) :
  adherenceStatus <$> (docs (final (run (handleGather config fault again req) db)) !! k)
  = adherenceStatus <$> (docs db !! k).
Proof.
  destruct (noSpeech (SpeechResult req)) eqn:Hsp.
  - rewrite (handleGather_noSpeech config fault again req db Hsp). reflexivity.
  - rewrite (handleGather_speech config fault again req db Hsp).
    unfold final. cbn [fst snd store findOneAndUpdate mongoCallLog].
    unfold mongoFindOneAndUpdate. destruct (connected db); cbn [negb snd docs]; [| reflexivity].
    rewrite lookup_alter. destruct (decide (gather_CallSid req = k)) as [->|_]; [| reflexivity].
    destruct (docs db !! k); reflexivity.
Qed.

(** C3, at the sample call. The handler speaks the positive template and
    hangs up, the verdict is Full, and the Call Record gets the status
    Answered and the transcript; but no update carries the verdict, and the
    record keeps the adherence status Unknown. *)
Theorem C3_verdict_not_persisted :
  let r := run (handleGather defaultConfig None None spokenYes) sampleDb in
  result r = Ok (sendXml [Say POSITIVE_RESPONSE_MESSAGE; Hangup])
  /\ verdicts (actions r) = [Full]
  /\ adherenceWrites (actions r) = []
  /\ docs (final r) !! "CA1"
     = Some {| callSid := "CA1";
               status := "Answered";
               patientPhoneNumber := "+12345678900";
               patientResponse := Some "yes I took my pills";
               adherenceStatus := Unknown;
               recordingUrl := None;
               notificationSent := false |}.
Proof. vm_compute. repeat split. Qed.

(** ** Call initiation *)

(** The pattern of the source accepts only numbers that are E.164 in that
    sense; it asks for one digit more. *)
Lemma matchE164_specE164 (s : string) : matchE164 s = true -> specE164 s = true.
Proof.
  destruct s as [|c [|d r]]; simpl; try discriminate.
  - destruct c as [[] [] [] [] [] [] [] []]; discriminate.
  - destruct c as [[] [] [] [] [] [] [] []]; try discriminate.
    rewrite !andb_true_iff. tauto.
Qed.

Lemma matchE164_one_digit : specE164 "+5" = true /\ matchE164 "+5" = false.
Proof. split; reflexivity. Qed.

Section InitiateFacts.

Context {St : Type} `{CallLog St}.
Variable config : Config.
Variable client : TwilioClient.

(** A request without a phone number, or with one that is not E.164, is
    answered before the provider or the store is reached, with status 500. *)
Lemma initiateCall_rejects (req : InitiateRequest) (st : St) :
  (phoneNumber req = None
   \/ exists p, phoneNumber req = Some p /\ specE164 p = false) ->
  let r := run (initiateCall config client req) st in
  actions r = [] /\ final r = st
  /\ exists details,
       result r = Ok {| statusCode := 500;
                        body := JsonError "Failed to initiate call" details |}.
Proof.
  intros Hbad r. subst r. unfold_handler.
  destruct Hbad as [-> | (p & -> & Hp)]; simpl.
  - repeat split. eexists. reflexivity.
  - destruct (isEmpty p) eqn:He; simpl.
    + repeat split. eexists. reflexivity.
    + destruct (matchE164 p) eqn:Hm.
      * apply matchE164_specE164 in Hm. congruence.
      * simpl. repeat split. eexists. reflexivity.
Qed.

End InitiateFacts.

(** The sample collection is what initiating the sample call leaves in an
    empty connected collection. *)
Lemma sampleDb_initiated :
  let r := run (initiateCall defaultConfig acceptingClient
                  {| phoneNumber := Some "+12345678900" |})
             {| docs := ∅; connected := true |} in
  result r = Ok {| statusCode := 200;
                   body := JsonCall "Call initiated successfully" "CA1" "queued" |}
  /\ final r = sampleDb.
Proof. split; reflexivity. Qed.

(** C7, at a number without the plus sign. The request is rejected before
    the provider is called and nothing is stored; the validation error is
    constructed with status 400, but the response carries status 500, which
    is not a client error. *)
Theorem C7_invalid_number_answered_500 :
  let r := run (initiateCall defaultConfig acceptingClient {| phoneNumber := Some "12345" |})
             sampleDb in
  result r = Ok {| statusCode := 500;
                   body := JsonError "Failed to initiate call"
                             "Phone number must be in E.164 format (e.g., +12345678900)" |}
  /\ isClientError 500 = false
  /\ actions r = []
  /\ final r = sampleDb
  /\ errorStatusCode
       (AppError "Phone number must be in E.164 format (e.g., +12345678900)" VALIDATION_ERROR)
     = Some 400.
Proof. vm_compute. repeat split. Qed.

(** ** The service functions *)

Lemma validNumber_test (x : option string) :
  falsy x || negb (matchE164 (the x)) = negb (validNumber x).
Proof. destruct x as [[|c p]|]; reflexivity. Qed.

Lemma validNumber_the (x : option string) :
  validNumber x = true -> x = Some (the x) /\ matchE164 (the x) = true.
Proof. destruct x as [p|]; simpl; [auto | discriminate]. Qed.

(** X1. [sendSms] leaves the store alone and reaches the provider exactly
    when the number matches the pattern and the message is not blank, with
    that number and that message, and then its outcome is the provider's.
    A number that does not match is refused first, then a blank message,
    each with its own error and without a request to the provider. *)
Theorem X1_sendSms_contract {St : Type} (config : Config) (client : TwilioClient)
    (phoneNumber : option string) (message : string) (st : St) :
  let r := run (sendSms config client phoneNumber message) st in
  final r = st
  /\ (validNumber phoneNumber = false ->
      result r = Throw (Error INVALID_PHONE) /\ messagesSent (actions r) = [])
  /\ (validNumber phoneNumber = true -> nonBlank message = false ->
      result r = Throw (Error "Message cannot be empty.")
      /\ messagesSent (actions r) = [])
  /\ (validNumber phoneNumber = true -> nonBlank message = true ->
      messagesSent (actions r) = [(the phoneNumber, message)]
      /\ result r =
         match messages_create client message (the phoneNumber) (twilioPhoneNumber config) with
         | Resolved _ => Ok tt
         | Rejected m => Throw (Error m)
         end).
Proof.
  intros r. subst r. unfold nonBlank.
  unfold run, result, actions, final, sendSms, await_client, emit, tryCatch, throw,
    mbind, M_bind, bind.
  rewrite validNumber_test.
  destruct (validNumber phoneNumber); cbn [negb store trace fst snd app].
  - destruct (isEmpty message || isEmpty (trim message)); cbn [negb store trace fst snd app].
    + repeat split; intros; try discriminate; reflexivity.
    + destruct (messages_create client message (the phoneNumber) (twilioPhoneNumber config))
        as [[]|m]; repeat split; intros; try discriminate; reflexivity.
  - repeat split; intros; try discriminate; reflexivity.
Qed.

Lemma X1_sendSms_witness :
  result (run (sendSms (St := unit) defaultConfig acceptingClient (Some "12345") "hello") tt)
  = Throw (Error INVALID_PHONE)
  /\ result (run (sendSms (St := unit) defaultConfig acceptingClient
                    (Some "+12345678900") "  ") tt)
     = Throw (Error "Message cannot be empty.")
  /\ messagesSent (actions (run (sendSms (St := unit) defaultConfig acceptingClient
                                   (Some "+12345678900") "hello") tt))
     = [("+12345678900", "hello")].
Proof.
  split; [| split].
  - apply (X1_sendSms_contract defaultConfig acceptingClient (Some "12345") "hello" tt).
    reflexivity.
  - apply (X1_sendSms_contract defaultConfig acceptingClient (Some "+12345678900") "  " tt);
      reflexivity.
  - apply (X1_sendSms_contract defaultConfig acceptingClient (Some "+12345678900") "hello" tt);
      reflexivity.
Defined.

(** X2. [makeCall] asks the provider for a call only to a number that
    matches the pattern, once, with the voice and status callbacks under the
    configured base URL, and returns the provider's call or rethrows its
    error; any other number is refused without a request to the provider. *)
Theorem X2_makeCall_contract {St : Type} (config : Config) (client : TwilioClient)
    (phoneNumber : option string) (st : St) :
  let r := run (makeCall config client phoneNumber) st in
  final r = st
  /\ (validNumber phoneNumber = false ->
      result r = Throw (Error INVALID_PHONE) /\ actions r = [])
  /\ (validNumber phoneNumber = true ->
      actions r = [CallsCreate (callParams config (the phoneNumber))]
      /\ result r =
         match calls_create client (callParams config (the phoneNumber)) with
         | Resolved call => Ok call
         | Rejected m => Throw (Error m)
         end).
Proof.
  intros r. subst r.
  unfold run, result, actions, final, makeCall, await_client, tryCatch, throw,
    mbind, M_bind, bind, ret.
  rewrite validNumber_test. fold (callParams config (the phoneNumber)).
  destruct (validNumber phoneNumber); cbn [negb store trace fst snd app].
  - destruct (calls_create client (callParams config (the phoneNumber))) as [c|m];
      repeat split; intros; try discriminate; reflexivity.
  - repeat split; intros; try discriminate; reflexivity.
Qed.

Lemma X2_makeCall_witness :
  result (run (makeCall (St := unit) defaultConfig acceptingClient (Some "+5")) tt)
  = Throw (Error INVALID_PHONE)
  /\ actions (run (makeCall (St := unit) defaultConfig acceptingClient
                     (Some "+12345678900")) tt)
     = [CallsCreate (callParams defaultConfig "+12345678900")].
Proof.
  split.
  - apply (X2_makeCall_contract defaultConfig acceptingClient (Some "+5") tt). reflexivity.
  - apply (X2_makeCall_contract defaultConfig acceptingClient (Some "+12345678900") tt).
    reflexivity.
Defined.

(** ** What the handlers answer and whom they contact *)

Lemma matchE164_nonempty (p : string) : matchE164 p = true -> isEmpty p = false.
Proof. destruct p; [discriminate | reflexivity]. Qed.

Lemma Forall_issued (P : Event -> Prop) (tr : list Event) :
  (forall e, steady e = false -> P e) -> Forall P (issued tr) -> Forall P tr.
Proof.
  intros Hw. unfold issued. induction tr as [|e tr IH]; simpl; [constructor |].
  destruct (steady e) eqn:E; intros Hf.
  - inversion Hf; subst. constructor; auto.
  - constructor; auto.
Qed.

Lemma callsPlaced_issued (tr : list Event) : callsPlaced (issued tr) = callsPlaced tr.
Proof. apply flat_map_issued. warn_free. Qed.

Lemma recordingsListed_issued (tr : list Event) :
  recordingsListed (issued tr) = recordingsListed tr.
Proof. apply flat_map_issued. warn_free. Qed.

Section InitiateOnAnyStore.

Context {St : Type} `{CallLog St}.
Variable config : Config.
Variable client : TwilioClient.

(** A run of [initiateCall] on a number that matches the pattern. *)
Lemma initiateCall_valid (req : InitiateRequest) (st : St) :
  validNumber (phoneNumber req) = true ->
  let p := the (phoneNumber req) in
  run (initiateCall config client req) st =
    match calls_create client (callParams config p) with
    | Resolved call =>
        let doc := {| new_callSid := sid call; new_status := "Initiated";
                      new_patientPhoneNumber := p |} in
        let o := create doc st in
        (Ok {| statusCode := 200;
               body := JsonCall "Call initiated successfully" (sid call) (call_status call) |},
         {| store := snd o;
            trace := [CallsCreate (callParams config p);
                      Log INFO "call_initiated" None None;
                      DbCreate doc] ++ warnIfRejected (fst o) |})
    | Rejected m =>
        (Ok {| statusCode := 500; body := JsonError "Failed to initiate call" m |},
         {| store := st; trace := [CallsCreate (callParams config p)] |})
    end.
Proof.
  intros Hv p. subst p. destruct req as [[p|]]; simpl in Hv; [| discriminate].
  unfold run, initiateCall, makeCall, CallLog_create, logger, await_store, await_client,
    emit, tryCatch, throw, mbind, M_bind, bind, mret, M_ret, ret.
  cbn [falsy phoneNumber]. change (the (Some p)) with p.
  rewrite (matchE164_nonempty _ Hv), Hv. cbn [negb orb store trace app].
  fold (callParams config p).
  destruct (calls_create client (callParams config p)) as [call|m];
    cbn [store trace app]; [| reflexivity].
  destruct (create _ st) as [[[]|m] st']; reflexivity.
Qed.

(** A run of [initiateCall] on any other number. *)
Lemma initiateCall_invalid (req : InitiateRequest) (st : St) :
  validNumber (phoneNumber req) = false ->
  run (initiateCall config client req) st =
    (Ok {| statusCode := 500;
           body := JsonError "Failed to initiate call"
                     (if falsy (phoneNumber req)
                      then "Phone number is required"
                      else "Phone number must be in E.164 format (e.g., +12345678900)") |},
     {| store := st; trace := [] |}).
Proof.
  intros Hv. destruct req as [[p|]]; simpl in Hv.
  - unfold_handler. destruct (isEmpty p) eqn:He; simpl; [reflexivity |].
    rewrite Hv. reflexivity.
  - reflexivity.
Qed.

End InitiateOnAnyStore.


Lemma created_app (a b : list Event) : created (a ++ b)%list = (created a ++ created b)%list.
Proof. apply flat_map_app. Qed.

Lemma created_warn (o : Outcome unit) : created (warnIfRejected o) = [].
Proof. destruct o; reflexivity. Qed.

Lemma callsPlaced_warn (o : Outcome unit) (tr : list Event) :
  callsPlaced (tr ++ warnIfRejected o)%list = callsPlaced tr.
Proof.
  unfold callsPlaced. rewrite flat_map_app. destruct o; simpl; apply app_nil_r.
Qed.

(** X4. For a number that matches the pattern, call initiation asks the
    provider for exactly one call.  When the provider accepts, the answer is
    200 with the call's sid and status and one record is created for that
    sid with status Initiated and the number; when the provider rejects, the
    answer is 500 with the provider's message, and nothing is created. *)
Theorem X4_initiateCall_outcomes {St : Type} `{CallLog St}
    (config : Config) (client : TwilioClient) (req : InitiateRequest) (st : St) :
  validNumber (phoneNumber req) = true ->
  let p := the (phoneNumber req) in
  let r := run (initiateCall config client req) st in
  callsPlaced (actions r) = [callParams config p]
  /\ match calls_create client (callParams config p) with
     | Resolved call =>
         result r = Ok {| statusCode := 200;
                          body := JsonCall "Call initiated successfully"
                                    (sid call) (call_status call) |}
         /\ created (actions r) = [{| new_callSid := sid call; new_status := "Initiated";
                                      new_patientPhoneNumber := p |}]
     | Rejected m =>
         result r = Ok {| statusCode := 500; body := JsonError "Failed to initiate call" m |}
         /\ created (actions r) = []
         /\ final r = st
     end.
Proof.
  intros Hv p r. subst p r. rewrite (initiateCall_valid config client req st Hv).
  destruct (calls_create client _) as [call|m]; unfold result, actions, final;
    cbn [fst snd trace store].
  - rewrite callsPlaced_warn, created_app, created_warn. repeat split.
  - repeat split.
Qed.

Lemma X4_initiateCall_witness :
  result (run (initiateCall defaultConfig rejectingClient
                 {| phoneNumber := Some "+12345678900" |}) sampleDb)
  = Ok {| statusCode := 500; body := JsonError "Failed to initiate call" "Authenticate" |}
  /\ created (actions (run (initiateCall defaultConfig acceptingClient
                              {| phoneNumber := Some "+12345678900" |}) sampleDb))
     = [{| new_callSid := "CA1"; new_status := "Initiated";
           new_patientPhoneNumber := "+12345678900" |}].
Proof.
  split.
  - pose proof (X4_initiateCall_outcomes defaultConfig rejectingClient
                  {| phoneNumber := Some "+12345678900" |} sampleDb eq_refl) as [_ Hr].
    exact (proj1 Hr).
  - pose proof (X4_initiateCall_outcomes defaultConfig acceptingClient
                  {| phoneNumber := Some "+12345678900" |} sampleDb eq_refl) as [_ Hr].
    exact (proj2 Hr).
Defined.

(** X5. In the mongoose model, initiating a call whose sid is already in
    the collection answers 200 and leaves the collection as it was: the
    stored session is not overwritten.  For a new, non-empty sid in a
    connected collection the record with the schema defaults is inserted;
    records of other calls are never touched. *)
Theorem X5_initiateCall_keeps_stored_session
    (config : Config) (client : TwilioClient) (req : InitiateRequest) (db : Mongo)
    (call : Call) :
  validNumber (phoneNumber req) = true ->
  calls_create client (callParams config (the (phoneNumber req))) = Resolved call ->
  let r := run (initiateCall config client req) db in
  result r = Ok {| statusCode := 200;
                   body := JsonCall "Call initiated successfully"
                             (sid call) (call_status call) |}
  /\ (forall d, docs db !! sid call = Some d -> final r = db)
  /\ (connected db = false -> final r = db)
  /\ (connected db = true -> docs db !! sid call = None -> isEmpty (sid call) = false ->
      docs (final r)
      = <[sid call := newDoc {| new_callSid := sid call; new_status := "Initiated";
                                new_patientPhoneNumber := the (phoneNumber req) |}]> (docs db))
  /\ (forall k, k <> sid call -> docs (final r) !! k = docs db !! k).
Proof.
  intros Hv Hc r. subst r. rewrite (initiateCall_valid config client req db Hv), Hc.
  destruct (validNumber_the _ Hv) as [_ Hm]. apply matchE164_nonempty in Hm.
  unfold result, final. cbn [fst snd store create mongoCallLog].
  unfold mongoCreate. cbn [new_callSid new_status new_patientPhoneNumber].
  rewrite Hm. change (inList "Initiated" statusEnum) with true.
  cbn [negb orb]. rewrite orb_false_r.
  split; [reflexivity |].
  destruct (connected db) eqn:Hconn; cbn [negb snd];
    destruct (isEmpty (sid call)) eqn:He; cbn [snd];
    try destruct (docs db !! sid call) eqn:Hd; cbn [snd docs];
    repeat split; intros; try congruence; try reflexivity.
  apply lookup_insert_ne. congruence.
Qed.

Lemma X5_initiateCall_witness :
  final (run (initiateCall defaultConfig acceptingClient
                {| phoneNumber := Some "+19876543210" |}) sampleDb) = sampleDb.
Proof.
  pose proof (X5_initiateCall_keeps_stored_session defaultConfig acceptingClient
                {| phoneNumber := Some "+19876543210" |} sampleDb
                {| sid := "CA1"; call_status := "queued" |} eq_refl eq_refl)
    as (_ & Hkept & _).
  exact (Hkept _ eq_refl).
Defined.

(** X6. Whom the handlers contact.  The voice entry and the gather result
    never contact the provider and never send a message.  A status callback
    places no call, sends a message only to a destination that matches the
    E.164 pattern and only the voicemail text, and lists recordings only for
    its own call.  Call initiation sends no message, lists no recordings and
    places a call only to a number that matches the pattern. *)
Theorem X6_provider_requests_well_formed {St : Type} `{CallLog St}
    (config : Config) (client : TwilioClient) (st : St) :
  (forall req, providerActions (actions (run (handleVoiceCall config req) st)) = [])
  /\ (forall fault again req,
        providerActions (actions (run (handleGather config fault again req) st)) = [])
  /\ (forall req,
        let r := run (handleStatusCallback config client req) st in
        Forall (wellFormedFor (CallSid req)) (actions r)
        /\ callsPlaced (actions r) = [])
  /\ (forall req,
        let r := run (initiateCall config client req) st in
        Forall (wellFormedFor EmptyString) (actions r)
        /\ messagesSent (actions r) = []
        /\ recordingsListed (actions r) = []).
Proof.
  split; [| split; [| split]].
  - intros req. unfold_handler.
    destruct (geb (parseInt10 (orDefault (voice_retryCount req) "0")) 2); reflexivity.
  - intros fault again req. destruct (noSpeech (SpeechResult req)) eqn:Hsp.
    + rewrite (handleGather_noSpeech config fault again req st Hsp). reflexivity.
    + rewrite (handleGather_speech config fault again req st Hsp).
      unfold actions. cbn [fst snd trace].
      destruct (findOneAndUpdate _ _ st) as [[[]|m] st'];
        destruct fault as [[]|]; reflexivity.
  - intros req r. subst r.
    pose proof (proj2 (handleStatusCallback_issued config client req st)) as Hi.
    split.
    + apply Forall_issued.
      { intros e He. destruct e as [| | | | | |[] ? ? ?]; simpl in *;
          try discriminate; exact I. }
      rewrite Hi. unfold statusTrace, fallbackTrace, recordingTrace.
      destruct (fallbackDue req), (String.eqb (CallStatus req) "completed"),
        (falsy (To req) || negb (matchE164 (the (To req)))) eqn:Hto,
        (smsAccepted config client (To req)),
        (firstRecording client (CallSid req));
        repeat constructor;
        apply orb_false_iff in Hto as [_ Hto]; apply negb_false_iff in Hto; exact Hto.
    + rewrite <- callsPlaced_issued, Hi. unfold statusTrace, fallbackTrace, recordingTrace.
      destruct (fallbackDue req), (String.eqb (CallStatus req) "completed"),
        (falsy (To req) || negb (matchE164 (the (To req)))),
        (smsAccepted config client (To req)),
        (firstRecording client (CallSid req)); reflexivity.
  - intros req r. subst r. destruct (validNumber (phoneNumber req)) eqn:Hv.
    + rewrite (initiateCall_valid config client req st Hv).
      destruct (validNumber_the _ Hv) as [_ Hm].
      destruct (calls_create client _) as [call|m]; unfold actions; cbn [fst snd trace].
      * destruct (create _ st) as [[[]|m] st']; repeat split; repeat constructor; exact Hm.
      * repeat split; repeat constructor; exact Hm.
    + rewrite (initiateCall_invalid config client req st Hv). repeat split. constructor.
Qed.

(** ** The status callback and the Call Record *)

(** X7. Recordings are asked for exactly when the status is completed,
    once and for the call of the event, whether or not the fallback was
    dispatched.  In the mongoose model the record of the call gets the first
    recording the provider lists when it has a URI; when the provider lists
    none or fails, or for any other status, the stored URL stays. *)
Theorem X7_recording_follows_completed {St : Type} `{CallLog St}
    (config : Config) (client : TwilioClient) (req : StatusRequest) (st : St) (db : Mongo) :
  recordingsListed (actions (run (handleStatusCallback config client req) st))
  = (if String.eqb (CallStatus req) "completed" then [CallSid req] else [])
  /\ (forall d, connected db = true -> docs db !! CallSid req = Some d ->
      recordingUrl <$> (docs (final (run (handleStatusCallback config client req) db))
                        !! CallSid req)
      = Some (if String.eqb (CallStatus req) "completed"
              then match recordings_list client (CallSid req) with
                   | Resolved (url :: _) => if isEmpty url then recordingUrl d else Some url
                   | _ => recordingUrl d
                   end
              else recordingUrl d)).
Proof.
  split.
  - rewrite <- recordingsListed_issued,
      (proj2 (handleStatusCallback_issued config client req st)).
    unfold statusTrace, fallbackTrace, recordingTrace.
    destruct (fallbackDue req), (String.eqb (CallStatus req) "completed"),
      (falsy (To req) || negb (matchE164 (the (To req)))),
      (smsAccepted config client (To req)),
      (firstRecording client (CallSid req)); reflexivity.
  - intros d Hconn Hd. rewrite handleStatusCallback_mongo, Hconn. cbn [docs].
    rewrite lookup_alter_eq, Hd. simpl. f_equal.
    unfold statusEffect, firstRecording.
    destruct (fallbackDue req && smsAccepted config client (To req)),
      (String.eqb (CallStatus req) "completed"); try reflexivity;
      destruct (recordings_list client (CallSid req)) as [[|url ?]|?]; try reflexivity;
      destruct (isEmpty url); reflexivity.
Qed.

Lemma X7_recording_witness :
  recordingUrl <$> (docs (final (run (handleStatusCallback defaultConfig acceptingClient
                                        voicemailEvent) sampleDb)) !! "CA1")
  = Some (Some "/2010-04-01/Recordings/RE1.json")
  /\ recordingUrl <$> (docs (final (run (handleStatusCallback defaultConfig rejectingClient
                                           humanEvent) sampleDb)) !! "CA1")
     = Some None.
Proof.
  split.
  - exact (proj2 (X7_recording_follows_completed defaultConfig acceptingClient voicemailEvent
                    sampleDb sampleDb) _ eq_refl eq_refl).
  - exact (proj2 (X7_recording_follows_completed defaultConfig rejectingClient humanEvent
                    sampleDb sampleDb) _ eq_refl eq_refl).
Defined.

(** X8. When the fallback is due but the message is not accepted (the
    destination does not match the pattern, or the provider rejects the
    message), the handler writes no second status: the only status written
    is the one of the event, the answer is still 200, and in the mongoose
    model the record keeps the status of the event. *)
Theorem X8_failed_fallback_keeps_status {St : Type} `{CallLog St}
    (config : Config) (client : TwilioClient) (req : StatusRequest) (st : St) (db : Mongo) :
  fallbackCondition req ->
  (validNumber (To req) = false
   \/ exists m, messages_create client VOICEMAIL_MESSAGE (the (To req))
                  (twilioPhoneNumber config) = Rejected m) ->
  let r := run (handleStatusCallback config client req) st in
  dispatches (actions r) = 1
  /\ statusWrites (actions r) = [CallStatus req]
  /\ result r = Ok {| statusCode := 200; body := Text "Status received" |}
  /\ (forall d, connected db = true -> docs db !! CallSid req = Some d ->
      status <$> (docs (final (run (handleStatusCallback config client req) db))
                  !! CallSid req)
      = Some (CallStatus req)).
Proof.
  intros Hdue Hfail r. subst r. apply fallbackDue_spec in Hdue.
  assert (Hsms : smsAccepted config client (To req) = false).
  { unfold smsAccepted. rewrite validNumber_test, negb_involutive.
    destruct Hfail as [-> | [m ->]]; [reflexivity | apply andb_false_r]. }
  split; [unfold dispatches; rewrite dispatched_status, Hdue; reflexivity |].
  split; [rewrite statusWrites_status, Hdue, Hsms; reflexivity |].
  split; [apply (handleStatusCallback_issued config client req st) |].
  intros d Hconn Hd. rewrite handleStatusCallback_mongo, Hconn. cbn [docs].
  rewrite lookup_alter_eq, Hd. simpl. rewrite status_statusEffect, Hdue, Hsms. reflexivity.
Qed.

Lemma X8_failed_fallback_witness :
  statusWrites (actions (run (handleStatusCallback defaultConfig rejectingClient
                                voicemailEvent) sampleDb))
  = ["completed"]
  /\ status <$> (docs (final (run (handleStatusCallback defaultConfig rejectingClient
                                     voicemailEvent) sampleDb)) !! "CA1")
     = Some "completed".
Proof.
  pose proof (X8_failed_fallback_keeps_status defaultConfig rejectingClient voicemailEvent
                sampleDb sampleDb) as Hx.
  destruct Hx as (_ & Hw & _ & Hdoc).
  - right. split; [reflexivity | left; discriminate].
  - right. exists "Authenticate". reflexivity.
  - split; [exact Hw | exact (Hdoc _ eq_refl eq_refl)].
Defined.

(** X9. In the mongoose model a status callback creates and deletes no
    record, leaves the records of all other calls as they are, and in the
    record of its own call changes at most the status and the recording
    URL: the sid, the phone number, the transcript, the adherence status
    and the notification flag stay. *)
Theorem X9_status_callback_frame
    (config : Config) (client : TwilioClient) (req : StatusRequest) (db : Mongo) :
  let db' := final (run (handleStatusCallback config client req) db) in
  connected db' = connected db
  /\ dom (docs db') = dom (docs db)
  /\ (forall k, k <> CallSid req -> docs db' !! k = docs db !! k)
  /\ (forall d, docs db !! CallSid req = Some d ->
      exists d', docs db' !! CallSid req = Some d'
                 /\ callSid d' = callSid d
                 /\ patientPhoneNumber d' = patientPhoneNumber d
                 /\ patientResponse d' = patientResponse d
                 /\ adherenceStatus d' = adherenceStatus d
                 /\ notificationSent d' = notificationSent d).
Proof.
  intros db'. subst db'. rewrite handleStatusCallback_mongo.
  destruct (connected db) eqn:Hconn; cbn [connected docs].
  - split; [reflexivity |]. split; [apply dom_alter_L |]. split.
    + intros k Hk. apply lookup_alter_ne. congruence.
    + intros d Hd. exists (statusEffect config client req d).
      rewrite lookup_alter_eq, Hd. split; [reflexivity |].
      unfold statusEffect.
      destruct (fallbackDue req && smsAccepted config client (To req)),
        (String.eqb (CallStatus req) "completed"),
        (firstRecording client (CallSid req)); repeat split.
  - split; [exact Hconn |]. split; [reflexivity |]. split; [reflexivity |].
    intros d Hd. exists d. repeat split. exact Hd.
Qed.

Lemma X9_status_callback_frame_witness :
  exists d', docs (final (run (handleStatusCallback defaultConfig acceptingClient
                                 voicemailEvent) sampleDb)) !! "CA1" = Some d'
             /\ patientPhoneNumber d' = "+12345678900"
             /\ adherenceStatus d' = Unknown.
Proof.
  destruct (X9_status_callback_frame defaultConfig acceptingClient voicemailEvent sampleDb)
    as (_ & _ & _ & Hown).
  destruct (Hown _ eq_refl) as (d' & Hd' & _ & Hp & _ & Ha & _).
  exists d'. split; [exact Hd' | split; [exact Hp | exact Ha]].
Defined.

(** ** The gather result and the Call Record *)

(** What a gather result does to the collection. *)
Lemma handleGather_mongo (config : Config)
    (fault : option ReplyStep) (again : option FallbackStep) (req : GatherRequest) (db : Mongo) :
  final (run (handleGather config fault again req) db)
  = if noSpeech (SpeechResult req) then db
    else if connected db
         then {| docs := alter (applyUpdate (answeredUpdate req)) (gather_CallSid req) (docs db);
                 connected := true |}
         else db.
Proof.
  destruct (noSpeech (SpeechResult req)) eqn:Hsp.
  - rewrite (handleGather_noSpeech config fault again req db Hsp). reflexivity.
  - rewrite (handleGather_speech config fault again req db Hsp).
    unfold final. cbn [fst snd store findOneAndUpdate mongoCallLog].
    unfold mongoFindOneAndUpdate. destruct db as [d []]; reflexivity.
Qed.

Lemma mongo_eq (db : Mongo) (m : gmap string CallDoc) :
  connected db = true -> m = docs db -> {| docs := m; connected := true |} = db.
Proof. destruct db as [d c]. simpl. intros -> ->. reflexivity. Qed.

(** X10. In the mongoose model a gather result creates and deletes no
    record and touches no record of another call.  Without speech, or for a
    call that has no record, the collection stays as it is.  With speech,
    in a connected collection, the record of the call gets the status
    Answered and the transcript as it was received, letter case and spaces
    included; its other fields stay. *)
Theorem X10_gather_frame
    (config : Config) (fault : option ReplyStep) (again : option FallbackStep)
    (req : GatherRequest) (db : Mongo) :
  let db' := final (run (handleGather config fault again req) db) in
  connected db' = connected db
  /\ dom (docs db') = dom (docs db)
  /\ (forall k, k <> gather_CallSid req -> docs db' !! k = docs db !! k)
  /\ (noSpeech (SpeechResult req) = true -> db' = db)
  /\ (docs db !! gather_CallSid req = None -> db' = db)
  /\ (forall s d, SpeechResult req = Some s -> noSpeech (Some s) = false ->
      connected db = true -> docs db !! gather_CallSid req = Some d ->
      docs db' !! gather_CallSid req
      = Some {| callSid := callSid d;
                status := "Answered";
                patientPhoneNumber := patientPhoneNumber d;
                patientResponse := Some s;
                adherenceStatus := adherenceStatus d;
                recordingUrl := recordingUrl d;
                notificationSent := notificationSent d |}).
Proof.
  intros db'. subst db'. rewrite handleGather_mongo.
  destruct (noSpeech (SpeechResult req)) eqn:Hsp.
  { repeat split; try reflexivity. intros s d Hs Hns Hc Hd.
    rewrite Hs in Hsp; congruence. }
  destruct (connected db) eqn:Hconn; cbn [connected docs].
  - split; [reflexivity |]. split; [apply dom_alter_L |]. split.
    { intros k Hk. apply lookup_alter_ne. congruence. }
    split; [discriminate |]. split.
    + intros Hnone. apply mongo_eq; [exact Hconn | apply alter_id'; exact Hnone].
    + intros s d Hs Hns _ Hd. rewrite lookup_alter_eq, Hd. simpl. f_equal.
      unfold applyUpdate, answeredUpdate. rewrite Hs. simpl.
      assert (He : isEmpty s = false).
      { unfold noSpeech in Hns. simpl in Hns. destruct (isEmpty s); [discriminate | reflexivity]. }
      rewrite He. reflexivity.
  - repeat split; try reflexivity; try congruence.
Qed.

(** A transcript with capitals and surrounding spaces. *)
Lemma X10_gather_frame_witness :
  docs (final (run (handleGather defaultConfig None None
                      {| SpeechResult := Some " Yes, I DID "; gather_CallSid := "CA1";
                         gather_retryCount := None |}) sampleDb)) !! "CA1"
  = Some {| callSid := "CA1";
            status := "Answered";
            patientPhoneNumber := "+12345678900";
            patientResponse := Some " Yes, I DID ";
            adherenceStatus := Unknown;
            recordingUrl := None;
            notificationSent := false |}.
Proof.
  destruct (X10_gather_frame defaultConfig None None
              {| SpeechResult := Some " Yes, I DID "; gather_CallSid := "CA1";
                 gather_retryCount := None |} sampleDb) as (_ & _ & _ & _ & _ & Hown).
  exact (Hown " Yes, I DID " _ eq_refl eq_refl eq_refl eq_refl).
Defined.

(** X11. A gather result and a status callback commute on the Call Record
    except for the status field, which the later of the two sets: after the
    two handlers in either order the collections agree once the status of
    every record is overwritten with the same value.  So a transcript is
    never lost to a status callback that arrives later, and a recording URL
    is never lost to a gather result that arrives later. *)
Theorem X11_gather_and_status_commute_up_to_status
    (config : Config) (client : TwilioClient)
    (fault : option ReplyStep) (again : option FallbackStep)
    (greq : GatherRequest) (sreq : StatusRequest) (db : Mongo) (x : string) :
  let gather_then_status :=
    final (run (handleStatusCallback config client sreq)
             (final (run (handleGather config fault again greq) db))) in
  let status_then_gather :=
    final (run (handleGather config fault again greq)
             (final (run (handleStatusCallback config client sreq) db))) in
  connected gather_then_status = connected status_then_gather
  /\ applyUpdate (statusUpdate x) <$> docs gather_then_status
     = applyUpdate (statusUpdate x) <$> docs status_then_gather.
Proof.
  intros gs sg. subst gs sg.
  rewrite !handleStatusCallback_mongo, !handleGather_mongo.
  destruct (noSpeech (SpeechResult greq)); [split; reflexivity |].
  destruct (connected db) eqn:Hconn; cbn [connected docs];
    rewrite ?Hconn; [| split; reflexivity].
  split; [reflexivity |].
  apply map_eq. intros k. rewrite !lookup_fmap.
  destruct (decide (CallSid sreq = k)) as [<-|Hs];
    destruct (decide (gather_CallSid greq = CallSid sreq)) as [Hg|Hg];
    rewrite ?Hg, ?lookup_alter_eq, ?(lookup_alter_ne _ _ _ _ Hs),
      ?(lookup_alter_ne _ _ _ _ Hg), ?lookup_alter_eq;
    try (destruct (decide (gather_CallSid greq = k)) as [<-|Hgk];
         rewrite ?lookup_alter_eq, ?(lookup_alter_ne _ _ _ _ Hgk),
           ?(lookup_alter_ne _ _ _ _ Hs));
    try reflexivity.
  destruct (docs db !! CallSid sreq) as [d|]; [| reflexivity]. simpl. f_equal.
  unfold statusEffect.
  destruct (fallbackDue sreq && smsAccepted config client (To sreq)),
    (String.eqb (CallStatus sreq) "completed"),
    (firstRecording client (CallSid sreq)); reflexivity.
Qed.

(** ** The retry count at its edges *)

(** X12. A retryCount parameter that does not read as a number is never
    counted up: the voice entry answers it with the re-ask prompt and a
    redirect carrying [retryCount=NaN], a gather result without speech
    answers it with the same redirect, and [NaN] read back is again not a
    number.  Along these redirects the closing message is never reached. *)
Theorem X12_unreadable_retry_count_loops {St : Type} `{CallLog St}
    (config : Config) (fault : option ReplyStep) (again : option FallbackStep)
    (vreq : VoiceRequest) (greq : GatherRequest) (st : St) :
  parseInt10 (orDefault (voice_retryCount vreq) "0") = NaN ->
  parseInt10 (orDefault (gather_retryCount greq) "0") = NaN ->
  noSpeech (SpeechResult greq) = true ->
  result (run (handleVoiceCall config vreq) st)
  = Ok (sendXml
      [Gather "speech" (webhookUrl config ++ "/api/twilio/gather") "auto" "en-US"
         REASK_MESSAGE;
       Redirect (webhookUrl config ++ "/api/twilio/voice?retryCount=NaN")])
  /\ result (run (handleGather config fault again greq) st)
     = Ok (sendXml [Redirect (webhookUrl config ++ "/api/twilio/voice?retryCount=NaN")])
  /\ parseInt10 (orDefault (Some "NaN") "0") = NaN.
Proof.
  intros Hv Hg Hno. split; [| split; [| reflexivity]].
  - unfold run, result, handleVoiceCall, tryCatch, logger, emit, generateTwiml,
      mbind, M_bind, bind, ret.
    rewrite Hv. reflexivity.
  - rewrite (handleGather_noSpeech config fault again greq st Hno), Hg. reflexivity.
Qed.

Lemma X12_unreadable_retry_count_witness :
  result (run (handleVoiceCall (St := unit) defaultConfig
                 {| voice_retryCount := Some "two" |}) tt)
  = Ok (sendXml
      [Gather "speech" "http://localhost:3000/api/twilio/gather" "auto" "en-US"
         REASK_MESSAGE;
       Redirect "http://localhost:3000/api/twilio/voice?retryCount=NaN"]).
Proof.
  exact (proj1 (X12_unreadable_retry_count_loops (St := unit) defaultConfig None None
                  {| voice_retryCount := Some "two" |}
                  {| SpeechResult := None; gather_CallSid := "CA1";
                     gather_retryCount := Some "NaN" |} tt eq_refl eq_refl eq_refl)).
Defined.

(** X13. The retry count survives the trip through the URL.  For every
    integer n in the exactly represented range, a gather result without
    speech whose retryCount is the text printed for n redirects with the
    text printed for n + 1, and the voice entry given that text acts at
    count n + 1: it closes the call when n + 1 is at least 2, speaks the
    reminder when n + 1 is 0, and otherwise, negative counts included,
    re-asks with a redirect carrying n + 2. *)
Theorem X13_retry_count_round_trip {St : Type} `{CallLog St}
    (config : Config) (fault : option ReplyStep) (again : option FallbackStep)
    (callSid : string) (st : St) (n : Z) :
  (Z.abs n < 2 ^ 53 - 1)%Z ->
  result (run (handleGather config fault again
                 {| SpeechResult := None; gather_CallSid := callSid;
                    gather_retryCount := Some (numToString (Num n)) |}) st)
  = Ok (sendXml [Redirect (webhookUrl config ++ "/api/twilio/voice?retryCount="
                           ++ numToString (Num (n + 1)))])
  /\ result (run (handleVoiceCall config
                    {| voice_retryCount := Some (numToString (Num (n + 1))) |}) st)
     = Ok (sendXml
         (if (2 <=? n + 1)%Z then [Say CLOSING_MESSAGE; Hangup]
          else [Gather "speech" (webhookUrl config ++ "/api/twilio/gather") "auto" "en-US"
                  (if (n + 1 =? 0)%Z then MEDICATION_REMINDER_MESSAGE else REASK_MESSAGE);
                Redirect (webhookUrl config ++ "/api/twilio/voice?retryCount="
                          ++ numToString (Num (n + 1 + 1)))])).
Proof.
  intros _. split.
  - rewrite (handleGather_noSpeech config fault again
               {| SpeechResult := None; gather_CallSid := callSid;
                  gather_retryCount := Some (numToString (Num n)) |} st eq_refl).
    cbn [gather_retryCount]. rewrite retryCount_round_trip. reflexivity.
  - unfold run, result, handleVoiceCall, tryCatch, logger, emit, generateTwiml,
      mbind, M_bind, bind, ret.
    cbn [voice_retryCount]. rewrite retryCount_round_trip.
    unfold geb, strictEq, succ. destruct (2 <=? n + 1)%Z; reflexivity.
Qed.

(** From a count of -1 the next leg is at 0 and speaks the reminder. *)
Lemma X13_retry_count_witness :
  result (run (handleVoiceCall (St := unit) defaultConfig
                 {| voice_retryCount := Some (numToString (Num (-1 + 1))) |}) tt)
  = Ok (sendXml
      [Gather "speech" "http://localhost:3000/api/twilio/gather" "auto" "en-US"
         MEDICATION_REMINDER_MESSAGE;
       Redirect "http://localhost:3000/api/twilio/voice?retryCount=1"]).
Proof.
  exact (proj2 (X13_retry_count_round_trip (St := unit) defaultConfig None None "CA1" tt (-1)
                  eq_refl)).
Defined.

(** ** Classification and surrounding speech *)

Lemma append_assoc (x y z : string) : (x ++ y) ++ z = x ++ y ++ z.
Proof.
  induction x as [|c x IH]; [reflexivity |].
  change (String c ((x ++ y) ++ z) = String c (x ++ y ++ z)). f_equal. exact IH.
Qed.

Lemma matches_extend (keywords : list string) (a t b : string) :
  matches keywords t -> matches keywords (a ++ t ++ b).
Proof.
  intros (k & Hin & a' & u & b' & -> & Hu).
  exists k. split; [exact Hin |].
  exists (a ++ a'), u, (b' ++ b). split; [| exact Hu].
  rewrite !append_assoc. reflexivity.
Qed.

(** X14. Speech around a transcript never removes a match.  If a
    transcript is classified Partial, so is every transcript that contains
    it; one that contains a Full transcript is Full or Partial; one that
    contains a None transcript is None or Partial.  Only Unclear can turn
    into any verdict. *)
Theorem X14_classify_under_extension (a t b : string) :
  (classify t = Partial -> classify (a ++ t ++ b) = Partial)
  /\ (classify t = Full ->
      classify (a ++ t ++ b) = Full \/ classify (a ++ t ++ b) = Partial)
  /\ (classify t = NoAdherence ->
      classify (a ++ t ++ b) = NoAdherence \/ classify (a ++ t ++ b) = Partial).
Proof.
  assert (Hpos : someIncluded positiveKeywords (toLowerCase t) = true ->
                 someIncluded positiveKeywords (toLowerCase (a ++ t ++ b)) = true).
  { rewrite !positive_matches. apply matches_extend. }
  assert (Hneg : someIncluded negativeKeywords (toLowerCase t) = true ->
                 someIncluded negativeKeywords (toLowerCase (a ++ t ++ b)) = true).
  { rewrite !negative_matches. apply matches_extend. }
  unfold classify. rewrite !analysis_cases.
  destruct (someIncluded positiveKeywords (toLowerCase t)),
    (someIncluded negativeKeywords (toLowerCase t)),
    (someIncluded positiveKeywords (toLowerCase (a ++ t ++ b))),
    (someIncluded negativeKeywords (toLowerCase (a ++ t ++ b)));
    simpl; repeat split; intros Hc; try discriminate Hc; auto;
    try (specialize (Hpos eq_refl); discriminate Hpos);
    try (specialize (Hneg eq_refl); discriminate Hneg).
Qed.

(** A confirmation that is followed by a denial. *)
Lemma X14_classify_witness :
  classify ("well " ++ "yes" ++ " but not the aspirin") = Full
  \/ classify ("well " ++ "yes" ++ " but not the aspirin") = Partial.
Proof.
  apply (X14_classify_under_extension "well " "yes" " but not the aspirin").
  reflexivity.
Defined.

(** ** [getCallLogs] *)

Section CallLogsFacts.

Context {St : Type} `{CallLogReads St}.

(** A run of [getCallLogs]: the store and the trace stay, and the answer is
    the page when both reads resolve. *)
Lemma getCallLogs_run (req : LogsRequest) (st : St) :
  run (getCallLogs req) st =
    let page := orNumber (parseInt (logs_page req)) 1 in
    let limit := orNumber (parseInt (logs_limit req)) 10 in
    let failed := {| logs_statusCode := 500;
                     logs_body := LogsError "Failed to retrieve call logs" |} in
    (Ok match find st with
        | QueryObject exec =>
            match exec ((page - 1) * limit)%Z limit, countDocuments st with
            | Resolved logs, Resolved total =>
                {| logs_statusCode := 200;
                   logs_body := LogsPage logs total page limit (ceilDiv total limit) |}
            | _, _ => failed
            end
        | PromiseObject _ => failed
        end,
     {| store := st; trace := [] |}).
Proof.
  unfold run, getCallLogs, CallLog_find_page, await_read, tryCatch, mbind, M_bind, bind, ret.
  cbn [store].
  destruct (find st) as [exec|v]; [| reflexivity].
  destruct (exec _ _) as [logs|m]; [| reflexivity].
  cbn [store]. destruct (countDocuments st) as [total|m]; reflexivity.
Qed.

End CallLogsFacts.

Lemma ceilDiv_spec (a b : Z) :
  (0 < b)%Z -> ((ceilDiv a b - 1) * b < a <= ceilDiv a b * b)%Z.
Proof.
  intros Hb. unfold ceilDiv.
  pose proof (Z.div_mod (- a) b ltac:(lia)) as Hdm.
  pose proof (Z.mod_pos_bound (- a) b Hb) as Hmod.
  nia.
Qed.

Lemma orNumber_nonzero (n : JSNum) (d : Z) : d <> 0%Z -> orNumber n d <> 0%Z.
Proof.
  intros Hd. destruct n as [|z]; simpl; [exact Hd |].
  destruct (z =? 0)%Z eqn:E; [exact Hd | lia].
Qed.

(** X15. With positive page and limit parameters and both reads
    resolving, [getCallLogs] answers 200 with the entries the query gives
    for skip (page - 1) * limit and that limit, and reports as number of
    pages the least number of pages of that size that hold all entries;
    the store is not changed. *)
Theorem X15_getCallLogs_pagination {St : Type} `{CallLogReads St}
    (req : LogsRequest) (st : St) (exec : Z -> Z -> Outcome (list CallDoc))
    (logs : list CallDoc) (total p l : Z) :
  parseInt (logs_page req) = Num p -> (0 < p)%Z ->
  parseInt (logs_limit req) = Num l -> (0 < l)%Z ->
  (p * l < 2 ^ 53)%Z -> (0 <= total < 2 ^ 53)%Z ->
  find st = QueryObject exec ->
  exec ((p - 1) * l)%Z l = Resolved logs ->
  countDocuments st = Resolved total ->
  let r := run (getCallLogs req) st in
  exists pages,
    result r = Ok {| logs_statusCode := 200;
                     logs_body := LogsPage logs total p l pages |}
    /\ ((pages - 1) * l < total <= pages * l)%Z
    /\ (forall k, (total <= k * l)%Z -> (pages <= k)%Z)
    /\ final r = st.
Proof.
  intros Hp Hp0 Hl Hl0 _ _ Hfind Hexec Hcount r. subst r.
  rewrite getCallLogs_run, Hp, Hl, Hfind. simpl orNumber.
  replace (p =? 0)%Z with false by lia. replace (l =? 0)%Z with false by lia.
  cbv zeta. rewrite Hexec, Hcount.
  exists (ceilDiv total l). pose proof (ceilDiv_spec total l Hl0) as Hc.
  split; [reflexivity |]. split; [exact Hc |]. split; [| reflexivity].
  intros k Hk. nia.
Qed.

(** A collection of 25 entries read in pages of 10. *)
Lemma X15_getCallLogs_witness :
  exists pages,
    result (run (getCallLogs (St := unit)
                   (H := {| find := fun _ => QueryObject (fun _ _ => Resolved []);
                            countDocuments := fun _ => Resolved 25%Z |})
                   {| logs_page := Some "2"; logs_limit := Some "10" |}) tt)
    = Ok {| logs_statusCode := 200; logs_body := LogsPage [] 25 2 10 pages |}
    /\ ((pages - 1) * 10 < 25 <= pages * 10)%Z.
Proof.
  assert (Hsmall : (2 * 10 < 2 ^ 53)%Z) by (vm_compute; reflexivity).
  assert (Htotal : (0 <= 25 < 2 ^ 53)%Z) by (split; vm_compute; [discriminate | reflexivity]).
  destruct (X15_getCallLogs_pagination
              (H := {| find := fun _ => QueryObject (fun _ _ => Resolved []);
                       countDocuments := fun _ => Resolved 25%Z |})
              {| logs_page := Some "2"; logs_limit := Some "10" |} tt
              (fun _ _ => Resolved []) [] 25 2 10
              eq_refl eq_refl eq_refl eq_refl Hsmall Htotal eq_refl eq_refl eq_refl)
    as (pages & Hr & Hb & _).
  exists pages. split; [exact Hr | exact Hb].
Defined.

Lemma standsFor_orNumber (x : option string) (d v : Z) :
  standsFor x d v <-> v = orNumber (parseInt x) d.
Proof.
  unfold standsFor. destruct (parseInt x) as [|z]; simpl.
  - split.
    + intros [[_ ->] | [Hx _]]; [reflexivity | discriminate].
    + intros ->. left. split; [left; reflexivity | reflexivity].
  - destruct (Z.eqb_spec z 0) as [-> | Hz].
    + split.
      * intros [[_ ->] | [[= <-] Hne]]; [reflexivity | contradiction].
      * intros ->. left. split; [right; reflexivity | reflexivity].
    + split.
      * intros [[[Hx | [= Hx]] _] | [[= ->] _]];
          [discriminate | contradiction | reflexivity].
      * intros ->. right. split; [reflexivity | exact Hz].
Qed.

(** X16. The page and limit parameters of [getCallLogs] default
    independently of each other.  A page parameter that is absent, does not
    read as a number, or reads as 0 stands for page 1, whatever the limit
    is; a limit parameter of that kind stands for limit 10, whatever the
    page is; every other value, a negative one included, is used as read.
    So page 3 without a limit is the query for skip 20 and limit 10, and a
    defaulting page with limit 5 is the query for skip 0 and limit 5.  Each
    parameter stands for one number, which is not 0, so the page count is
    never a division by 0.  In the exactly represented range, when the
    query for skip (page - 1) * limit and that limit and the count both
    resolve, the answer is 200 with the entries of that query, the count,
    the page, the limit and the page count; and every 200 answer is of that
    form. *)
Theorem X16_getCallLogs_defaults {St : Type} `{CallLogReads St}
    (req : LogsRequest) (st : St) :
  (exists page limit,
     standsFor (logs_page req) 1 page /\ standsFor (logs_limit req) 10 limit)
  /\ (forall page limit,
        standsFor (logs_page req) 1 page ->
        standsFor (logs_limit req) 10 limit ->
        page <> 0%Z /\ limit <> 0%Z
        /\ (forall page', standsFor (logs_page req) 1 page' -> page' = page)
        /\ (forall limit', standsFor (logs_limit req) 10 limit' -> limit' = limit)
        /\ ((Z.abs page < 2 ^ 53)%Z -> (Z.abs limit < 2 ^ 53)%Z ->
            (Z.abs ((page - 1) * limit) < 2 ^ 53)%Z ->
            (forall exec logs total,
               (0 <= total < 2 ^ 53)%Z ->
               find st = QueryObject exec ->
               exec ((page - 1) * limit)%Z limit = Resolved logs ->
               countDocuments st = Resolved total ->
               result (run (getCallLogs req) st)
               = Ok {| logs_statusCode := 200;
                       logs_body := LogsPage logs total page limit (ceilDiv total limit) |})
            /\ (forall logs total page' limit' pages,
                  (0 <= total < 2 ^ 53)%Z ->
                  result (run (getCallLogs req) st)
                  = Ok {| logs_statusCode := 200;
                          logs_body := LogsPage logs total page' limit' pages |} ->
                  page' = page /\ limit' = limit /\ pages = ceilDiv total limit
                  /\ countDocuments st = Resolved total
                  /\ exists exec, find st = QueryObject exec
                                  /\ exec ((page - 1) * limit)%Z limit = Resolved logs))).
Proof.
  split.
  - exists (orNumber (parseInt (logs_page req)) 1), (orNumber (parseInt (logs_limit req)) 10).
    split; apply standsFor_orNumber; reflexivity.
  - intros page limit Hp Hl.
    apply standsFor_orNumber in Hp, Hl. subst page limit.
    split; [apply orNumber_nonzero; discriminate |].
    split; [apply orNumber_nonzero; discriminate |].
    split; [intros page' Hp'; apply standsFor_orNumber in Hp'; exact Hp' |].
    split; [intros limit' Hl'; apply standsFor_orNumber in Hl'; exact Hl' |].
    intros _ _ _. split.
    + intros exec logs total _ Hfind Hexec Hcount.
      rewrite getCallLogs_run. unfold result. cbn [fst]. cbv zeta.
      rewrite Hfind, Hexec, Hcount. reflexivity.
    + intros logs total page' limit' pages _.
      rewrite getCallLogs_run. unfold result. cbn [fst]. cbv zeta.
      destruct (find st) as [exec|v]; [| discriminate].
      destruct (exec _ _) as [logs'|m] eqn:Hexec; [| discriminate].
      destruct (countDocuments st) as [total'|m]; [| discriminate].
      intros [= <- <- <- <- <-].
      repeat split. exists exec. split; [reflexivity | exact Hexec].
Qed.

(** Page 3 without a limit is the query for skip 20 and limit 10, the only
    one that collection answers; an unreadable page with limit 5 is page 1
    of 5 pages of 5 entries. *)
Lemma X16_getCallLogs_defaults_witness :
  result (run (getCallLogs (St := unit) (H := thirdPageOnly)
                 {| logs_page := Some "3"; logs_limit := None |}) tt)
  = Ok {| logs_statusCode := 200; logs_body := LogsPage [] 25 3 10 3 |}
  /\ result (run (getCallLogs (St := unit)
                    (H := {| find := fun _ => QueryObject (fun _ _ => Resolved []);
                             countDocuments := fun _ => Resolved 25%Z |})
                    {| logs_page := Some "first"; logs_limit := Some "5" |}) tt)
     = Ok {| logs_statusCode := 200; logs_body := LogsPage [] 25 1 5 5 |}.
Proof.
  assert (Htotal : (0 <= 25 < 2 ^ 53)%Z)
    by (split; vm_compute; [discriminate | reflexivity]).
  split.
  - destruct (X16_getCallLogs_defaults (H := thirdPageOnly)
                {| logs_page := Some "3"; logs_limit := None |} tt) as [_ Hall].
    assert (Hp : standsFor (Some "3") 1 3)
      by (right; split; [reflexivity | discriminate]).
    assert (Hl : standsFor None 10 10)
      by (left; split; [left; reflexivity | reflexivity]).
    assert (Hpage : (Z.abs 3 < 2 ^ 53)%Z) by (vm_compute; reflexivity).
    assert (Hlimit : (Z.abs 10 < 2 ^ 53)%Z) by (vm_compute; reflexivity).
    assert (Hskip : (Z.abs ((3 - 1) * 10) < 2 ^ 53)%Z) by (vm_compute; reflexivity).
    destruct (Hall 3%Z 10%Z Hp Hl) as (_ & _ & _ & _ & Hexact).
    destruct (Hexact Hpage Hlimit Hskip) as [Hanswer _].
    exact (Hanswer _ [] 25%Z Htotal eq_refl eq_refl eq_refl).
  - destruct (X16_getCallLogs_defaults
                (H := {| find := fun _ => QueryObject (fun _ _ => Resolved []);
                         countDocuments := fun _ => Resolved 25%Z |})
                {| logs_page := Some "first"; logs_limit := Some "5" |} tt) as [_ Hall].
    assert (Hp : standsFor (Some "first") 1 1)
      by (left; split; [left; reflexivity | reflexivity]).
    assert (Hl : standsFor (Some "5") 10 5)
      by (right; split; [reflexivity | discriminate]).
    assert (Hpage : (Z.abs 1 < 2 ^ 53)%Z) by (vm_compute; reflexivity).
    assert (Hlimit : (Z.abs 5 < 2 ^ 53)%Z) by (vm_compute; reflexivity).
    assert (Hskip : (Z.abs ((1 - 1) * 5) < 2 ^ 53)%Z) by (vm_compute; reflexivity).
    destruct (Hall 1%Z 5%Z Hp Hl) as (_ & _ & _ & _ & Hexact).
    destruct (Hexact Hpage Hlimit Hskip) as [Hanswer _].
    exact (Hanswer _ [] 25%Z Htotal eq_refl eq_refl eq_refl).
Defined.

(** X17. With the mock store, which takes the place of the collection when
    no database is configured, [getCallLogs] answers every request with 500
    [Failed to retrieve call logs]: the mock's [find] gives a promise, and
    the handler calls [sort] on it. *)
Theorem X17_getCallLogs_fails_on_mock (req : LogsRequest) :
  result (run (getCallLogs (St := unit) req) tt)
  = Ok {| logs_statusCode := 500; logs_body := LogsError "Failed to retrieve call logs" |}.
Proof. rewrite getCallLogs_run. reflexivity. Qed.

(** X18. A read that the store rejects is not swallowed by [getCallLogs],
    and only the reads of the page asked count.  For a page and a limit in
    the exactly represented range, the answer is 500 with the error
    [Failed to retrieve call logs] exactly when [find] gives no query to
    sort, or the query for the page asked, with skip (page - 1) * limit and
    that limit, is rejected, or the count is rejected; what the store would
    answer for another page plays no part.  In every other case the answer
    is 200 for that page and limit, and no exception leaves the handler. *)
Theorem X18_getCallLogs_rejected_read {St : Type} `{CallLogReads St}
    (req : LogsRequest) (st : St) (page limit : Z) :
  standsFor (logs_page req) 1 page ->
  standsFor (logs_limit req) 10 limit ->
  (Z.abs page < 2 ^ 53)%Z -> (Z.abs limit < 2 ^ 53)%Z ->
  (Z.abs ((page - 1) * limit) < 2 ^ 53)%Z ->
  let r := result (run (getCallLogs req) st) in
  let failed := Ok {| logs_statusCode := 500;
                      logs_body := LogsError "Failed to retrieve call logs" |} in
  (r = failed
   <-> (exists value, find st = PromiseObject value)
       \/ (exists exec m, find st = QueryObject exec
                          /\ exec ((page - 1) * limit)%Z limit = Rejected m)
       \/ (exists m, countDocuments st = Rejected m))
  /\ (r = failed
      \/ exists logs total pages,
           r = Ok {| logs_statusCode := 200;
                     logs_body := LogsPage logs total page limit pages |}).
Proof.
  intros Hp Hl _ _ _ r failed. subst r failed.
  apply standsFor_orNumber in Hp, Hl. subst page limit.
  rewrite getCallLogs_run. unfold result. cbn [fst]. cbv zeta.
  destruct (find st) as [exec|value].
  - destruct (exec _ _) as [logs|m] eqn:Hexec.
    + destruct (countDocuments st) as [total|m] eqn:Hcount.
      * split; [| right; eexists _, _, _; reflexivity].
        split; [discriminate |].
        intros [(value & Hv) | [(exec' & m & [= <-] & Hm) | (m & Hm)]];
          [discriminate | congruence | discriminate].
      * split; [| left; reflexivity].
        split; [| reflexivity]. intros _. right. right. exists m. reflexivity.
    + split; [| left; reflexivity].
      split; [| reflexivity]. intros _. right. left. exists exec, m.
      split; [reflexivity | exact Hexec].
  - split; [| left; reflexivity].
    split; [| reflexivity]. intros _. left. exists value. reflexivity.
Qed.

(** Page -1 asks for skip -20: the collection rejects that query alone, and
    the answer is 500. *)
Lemma X18_getCallLogs_rejected_witness :
  result (run (getCallLogs (St := unit) (H := noNegativeSkip)
                 {| logs_page := Some "-1"; logs_limit := None |}) tt)
  = Ok {| logs_statusCode := 500; logs_body := LogsError "Failed to retrieve call logs" |}.
Proof.
  assert (Hpage : (Z.abs (-1) < 2 ^ 53)%Z) by (vm_compute; reflexivity).
  assert (Hlimit : (Z.abs 10 < 2 ^ 53)%Z) by (vm_compute; reflexivity).
  assert (Hskip : (Z.abs ((-1 - 1) * 10) < 2 ^ 53)%Z) by (vm_compute; reflexivity).
  refine (proj2 (proj1 (X18_getCallLogs_rejected_read (H := noNegativeSkip)
                          {| logs_page := Some "-1"; logs_limit := None |} tt
                          (-1)%Z 10%Z _ _ Hpage Hlimit Hskip)) _).
  - right. split; [reflexivity | discriminate].
  - left. split; [left; reflexivity | reflexivity].
  - right. left. eexists _, _. split; reflexivity.
Defined.

(** ** The logger *)

Lemma indexOf_LogLevels (level : string) :
  (-1 <= indexOf LogLevels level <= 3)%Z
  /\ (indexOf LogLevels level = (-1)%Z <-> ~ In level LogLevels).
Proof.
  unfold LogLevels. cbn [indexOf In].
  destruct (String.eqb_spec "ERROR" level) as [<-|H1].
  { split; [lia |]. split; [intros Hx; exfalso; lia | intros Hn; exfalso; apply Hn; auto]. }
  destruct (String.eqb_spec "WARN" level) as [<-|H2].
  { simpl. split; [lia |]. split; [intros Hx; exfalso; lia | intros Hn; exfalso; apply Hn; auto]. }
  destruct (String.eqb_spec "INFO" level) as [<-|H3].
  { simpl. split; [lia |]. split; [intros Hx; exfalso; lia | intros Hn; exfalso; apply Hn; auto]. }
  destruct (String.eqb_spec "DEBUG" level) as [<-|H4].
  { simpl. split; [lia |]. split; [intros Hx; exfalso; lia | intros Hn; exfalso; apply Hn; auto 6]. }
  simpl. split; [lia |]. split; [intros _; tauto | reflexivity].
Qed.

(** X19. Which entries the logger prints.  Errors are printed in every
    environment; a level is printed whenever a level that comes later in
    the list of levels is; with NODE_ENV [test] nothing but errors is
    printed, with [production] everything but debug entries, and with any
    other value, or none, everything. *)
Theorem X19_shouldLog_levels (NODE_ENV : option string) :
  shouldLog NODE_ENV "ERROR" = true
  /\ (forall l1 l2,
        (indexOf LogLevels l1 <= indexOf LogLevels l2)%Z ->
        shouldLog NODE_ENV l2 = true -> shouldLog NODE_ENV l1 = true)
  /\ (NODE_ENV = Some "test" ->
      forall level, In level LogLevels ->
        (shouldLog NODE_ENV level = true <-> level = "ERROR"))
  /\ (NODE_ENV = Some "production" ->
      forall level, In level LogLevels ->
        (shouldLog NODE_ENV level = true <-> level <> "DEBUG"))
  /\ (orDefault NODE_ENV "development" <> "test" ->
      orDefault NODE_ENV "development" <> "production" ->
      forall level, shouldLog NODE_ENV level = true).
Proof.
  assert (Hmin : getMinLogLevel NODE_ENV = "INFO" \/ getMinLogLevel NODE_ENV = "ERROR"
                 \/ getMinLogLevel NODE_ENV = "DEBUG").
  { unfold getMinLogLevel.
    destruct (String.eqb _ "production"); [auto |].
    destruct (String.eqb _ "test"); auto. }
  split; [| split; [| split; [| split]]].
  - unfold shouldLog. destruct Hmin as [-> | [-> | ->]]; reflexivity.
  - intros l1 l2 Hle. unfold shouldLog. rewrite !Z.leb_le. lia.
  - intros -> level Hin. unfold shouldLog. simpl in Hin.
    destruct Hin as [<- | [<- | [<- | [<- | []]]]]; vm_compute; split; intros Hx;
      first [reflexivity | discriminate Hx | discriminate | exfalso; apply Hx; reflexivity].
  - intros -> level Hin. unfold shouldLog. simpl in Hin.
    destruct Hin as [<- | [<- | [<- | [<- | []]]]]; vm_compute; split; intros Hx;
      first [reflexivity | discriminate Hx | discriminate | exfalso; apply Hx; reflexivity].
  - intros Ht Hp level. unfold shouldLog, getMinLogLevel.
    destruct (String.eqb_spec (orDefault NODE_ENV "development") "production");
      [contradiction |].
    destruct (String.eqb_spec (orDefault NODE_ENV "development") "test"); [contradiction |].
    change (indexOf LogLevels "DEBUG") with 3%Z.
    apply Z.leb_le. apply (indexOf_LogLevels level).
Qed.

Lemma X19_shouldLog_witness :
  shouldLog (Some "test") "WARN" = false
  /\ shouldLog (Some "production") "INFO" = true
  /\ shouldLog None "DEBUG" = true.
Proof.
  destruct (X19_shouldLog_levels (Some "test")) as (_ & _ & Htest & _).
  destruct (X19_shouldLog_levels (Some "production")) as (_ & _ & _ & Hprod & _).
  destruct (X19_shouldLog_levels None) as (_ & _ & _ & _ & Hdev).
  split; [| split].
  - destruct (shouldLog (Some "test") "WARN") eqn:E; [| reflexivity].
    apply (Htest eq_refl "WARN") in E; [discriminate | simpl; auto].
  - apply (Hprod eq_refl "INFO"); [simpl; auto | discriminate].
  - apply Hdev; discriminate.
Defined.

Section ObjectFacts.







End ObjectFacts.



(** ** The error middleware *)

(** X21. The error middleware never answers with a success status: the
    status is the one of the error's type for an [AppError] (a 4xx exactly
    for validation, authentication, authorization and not-found errors) and
    500 for every other error, whose message is kept, or replaced by a
    default when it is empty.  Outside the development environment the
    reply has no [details], so a stack trace is never sent; the request id
    is the [x-request-id] header, else [x-correlation-id], else a generated
    one. *)
Theorem X21_errorHandler_reply (NODE_ENV xRequestId xCorrelationId : option string)
    (generated : string) (err : JSError) :
  let r := errorHandler NODE_ENV xRequestId xCorrelationId generated err in
  (400 <= reply_statusCode r < 600)%nat
  /\ reply_statusCode r = ErrorStatusCodes (reply_type r)
  /\ (isClientError (reply_statusCode r) = true <->
      In (reply_type r)
        [VALIDATION_ERROR; AUTHENTICATION_ERROR; AUTHORIZATION_ERROR; NOT_FOUND_ERROR])
  /\ (forall m t d, err = AnAppError m t d -> reply_type r = t /\ reply_message r = m)
  /\ (forall m stack, err = AnError m stack ->
      reply_statusCode r = 500 /\ reply_type r = INTERNAL_ERROR
      /\ reply_message r = orDefault m "An unexpected error occurred")
  /\ (NODE_ENV <> Some "development" -> reply_details r = None)
  /\ (forall m stack, NODE_ENV = Some "development" -> err = AnError m stack ->
      reply_details r = Some stack)
  /\ reply_requestId r
     = match xRequestId, xCorrelationId with
       | Some (String c i), _ => String c i
       | _, Some (String c i) => String c i
       | _, _ => generated
       end.
Proof.
  intros r. subst r. unfold errorHandler.
  assert (Hid : requestIdOf xRequestId xCorrelationId generated
                = match xRequestId, xCorrelationId with
                  | Some (String c i), _ => String c i
                  | _, Some (String c i) => String c i
                  | _, _ => generated
                  end).
  { destruct xRequestId as [[|c i]|], xCorrelationId as [[|c' i']|]; reflexivity. }
  destruct err as [m t d | m stack]; cbn [reply_statusCode reply_type reply_message
                                           reply_details reply_requestId].
  - split; [destruct t; simpl; lia |]. split; [reflexivity |].
    split; [destruct t; simpl; split; intros Hx; try discriminate Hx; auto;
            intuition discriminate |].
    split; [intros ? ? ? [= <- <- <-]; auto |]. split; [discriminate |].
    split; [intros Hne; rewrite bool_decide_eq_false_2 by exact Hne; reflexivity |].
    split; [discriminate | exact Hid].
  - split; [simpl; lia |]. split; [reflexivity |].
    split; [simpl; split; intros Hx; [discriminate Hx | intuition discriminate] |].
    split; [discriminate |]. split; [intros ? ? [= <- <-]; auto |].
    split; [intros Hne; rewrite bool_decide_eq_false_2 by exact Hne; reflexivity |].
    split; [| exact Hid].
    intros m' stack' -> [= <- <-]. reflexivity.
Qed.

(** A failure outside development, and the validation error that the
    controller answers with 500. *)
Lemma X21_errorHandler_witness :
  reply_details
    (errorHandler (Some "production") None (Some "corr-7") "req-1"
       (AnError (Some "boom") (Some "at handler (app.js:1)")))
  = None
  /\ reply_statusCode
       (errorHandler (Some "production") None (Some "corr-7") "req-1"
          (AnAppError "Phone number is required" VALIDATION_ERROR None))
     = 400.
Proof.
  split.
  - apply (X21_errorHandler_reply (Some "production") None (Some "corr-7") "req-1").
    discriminate.
  - pose proof (X21_errorHandler_reply (Some "production") None (Some "corr-7") "req-1"
                  (AnAppError "Phone number is required" VALIDATION_ERROR None))
      as (_ & Hs & _ & Ht & _).
    cbv zeta in Hs, Ht. rewrite Hs. destruct (Ht _ _ _ eq_refl) as [-> _]. reflexivity.
Defined.
